(** * scisample: samplers, cross product, range sampling and the factory

    A shallow embedding of [scisample/cross_product.py],
    [scisample/uqpipeline_sample.py] and [scisample/samplers.py], with the
    Python values, dictionaries, exceptions and object store they rely on,
    followed by the properties of the specification that concern them. *)

From Stdlib Require Import ZArith.
From Stdlib Require PrimFloat SpecFloat FloatOps.
From stdpp Require Import base option list strings gmap.

(** ** Python values, dictionaries and exceptions *)

Module Python.

(** The scalars a configuration holds once the structured text is loaded:
    [None], booleans, integers, floats (IEEE binary64, as CPython's) and
    strings.  All of them are immutable objects. *)
Inductive PyVal : Type :=
| PyNone
| PyBool (b : bool)
| PyInt (z : Z)
| PyFloat (f : PrimFloat.float)
| PyStr (s : string).

(** A Python [dict] with string keys: the items in insertion order.  A
    well-formed dictionary holds each key once ([dict_wf]). *)
Abbreviation dict V := (list (string * V)) (only parsing).

Definition keys {V} (d : dict V) : list string := d.*1.
Definition dict_wf {V} (d : dict V) : Prop := NoDup (keys d).

(** [d[k]]; [None] stands for the [KeyError]. *)
Fixpoint dict_get {V} (d : dict V) (k : string) : option V :=
  match d with
  | [] => None
  | (k', v) :: rest => if decide (k = k') then Some v else dict_get rest k
  end.

(** [d[k] = v]: an existing key keeps its position, a new one goes last. *)
Fixpoint dict_set {V} (k : string) (v : V) (d : dict V) : dict V :=
  match d with
  | [] => [(k, v)]
  | (k', v') :: rest =>
      if decide (k = k') then (k, v) :: rest else (k', v') :: dict_set k v rest
  end.

(** [d.update(other)]. *)
Definition dict_update {V} (d other : dict V) : dict V :=
  foldl (fun acc kv => dict_set kv.1 kv.2 acc) d other.

(** One entry of the [parameters] block: a literal sequence of values
    ([X2: [5, 10]]) or a mapping such as [{min: 5, max: 10}]. *)
Inductive ParamSpec : Type :=
| Values (l : list PyVal)
| Range (entry : list (string * PyVal)).

(** What the mapping may hold under [type]: a scalar (the name of a
    variant is a string), a list or a mapping. *)
Inductive ConfigValue : Type :=
| Scalar (v : PyVal)
| Sequence (l : list PyVal)
| Mapping (entry : list (string * PyVal)).

(** The sampler configuration.  A key that the mapping does not hold is
    [None]. *)
Record SamplerData : Type := mkData {
  type_ : option ConfigValue;
  constants : option (list (string * PyVal));
  parameters : option (list (string * ParamSpec));
  num_samples : option PyVal;
  previous_samples : option PyVal
}.

(** The diagnostics, one constructor per message of the sources, with the
    values that its f-string formats:
    - [NoTypeEntry]: "No type entry in sampler data {sampler_data}";
    - [NotRecognized]: "{type} s not a recognized sampler type";
    - [SamplerInvalid]: "Sampler is invalid, cannot create the maestro
      specification";
    - [PreviousSamplesUnsupported]: "'previous_samples' is not yet
      supported. ...";
    - [NumericMinimum]: "Parameter ({key}) must have a numeric minimum.
      Current minimum value is: {value}.", and [NumericMaximum] likewise.
    The last four are those of the checks of [base_sampler.py], whose
    texts are not among the sources. *)
Inductive Message : Type :=
| NoTypeEntry (sampler_data : SamplerData)
| NotRecognized (type_value : PyVal)
| SamplerInvalid
| PreviousSamplesUnsupported
| NumericMinimum (key : string) (value : ParamSpec)
| NumericMaximum (key : string) (value : ParamSpec)
| VariablesMissing
| ParametersEmpty
| DuplicateVariable (name : string)
| InvalidSampleCount (value : option PyVal).

Inductive Exception : Type :=
| SamplingError (msg : Message)
| KeyError (key : string)
| TypeError
| ValueError
| IndexError
| OverflowError
| NameError (name : string).

Inductive result (A : Type) : Type :=
| Ok (a : A)
| Raise (e : Exception).
Arguments Ok {A} a.
Arguments Raise {A} e.

#[global] Instance result_ret : MRet result := fun A a => Ok a.
#[global] Instance result_bind : MBind result := fun A B f m =>
  match m with
  | Ok a => f a
  | Raise e => Raise e
  end.

(** [d[k]] where a missing key raises. *)
Definition getitem {V} (d : dict V) (k : string) : result V :=
  match dict_get d k with
  | Some v => Ok v
  | None => Raise (KeyError k)
  end.

(** [t[i]] on a tuple or list. *)
Definition tuple_getitem {A} (t : list A) (i : nat) : result A :=
  match t !! i with
  | Some v => Ok v
  | None => Raise IndexError
  end.

(** [enumerate(l)]. *)
Definition enumerate {A} (l : list A) : list (nat * A) := imap (fun i x => (i, x)) l.

(** What iterating over a parameter entry yields: the elements of a
    sequence, the keys of a mapping. *)
Definition py_iter (v : ParamSpec) : list PyVal :=
  match v with
  | Values l => l
  | Range entry => PyStr <$> keys entry
  end.

(** [itertools.product] over the pools, as the library documents it:
    [result = [[]]], then for each pool
    [result = [x+[y] for x in result for y in pool]]. *)
Definition product_step {A} (res : list (list A)) (pool : list A) : list (list A) :=
  x ← res; y ← pool; [x ++ [y]].

Definition itertools_product {A} (pools : list (list A)) : list (list A) :=
  foldl product_step [[]] pools.

(** The order the specification gives the product: the tuples that start
    with the first element of the first pool come first, so the first
    pool varies slowest and the last one fastest. *)
Fixpoint lexicographic_product {A} (pools : list (list A)) : list (list A) :=
  match pools with
  | [] => [[]]
  | pool :: rest => y ← pool; (fun t => y :: t) <$> lexicographic_product rest
  end.

(** The product of a list of numbers. *)
Definition prod (l : list nat) : nat := foldr Nat.mul 1 l.

(** [float(z)] for an integer: the nearest binary64 (ties to even), or
    [OverflowError] when that is not finite. *)
Definition float_of_int (z : Z) : result PrimFloat.float :=
  match SpecFloat.binary_normalize FloatOps.prec FloatOps.emax z 0 false with
  | SpecFloat.S754_infinity _ => Raise OverflowError
  | sf => Ok (FloatOps.SF2Prim sf)
  end.

(** The numeric tower: [bool] is a subtype of [int]. *)
Inductive Number : Type :=
| NInt (z : Z)
| NFloat (f : PrimFloat.float).

Definition as_number (v : PyVal) : option Number :=
  match v with
  | PyBool b => Some (NInt (if b then 1 else 0))
  | PyInt z => Some (NInt z)
  | PyFloat f => Some (NFloat f)
  | PyNone | PyStr _ => None
  end.

(** A binary arithmetic operator on numbers: integers stay integers, a
    float operand converts the other one. *)
Definition arith (iop : Z -> Z -> Z)
    (fop : PrimFloat.float -> PrimFloat.float -> PrimFloat.float)
    (a b : Number) : result PyVal :=
  match a, b with
  | NInt x, NInt y => Ok (PyInt (iop x y))
  | NInt x, NFloat g => f ← float_of_int x; Ok (PyFloat (fop f g))
  | NFloat f, NInt y => g ← float_of_int y; Ok (PyFloat (fop f g))
  | NFloat f, NFloat g => Ok (PyFloat (fop f g))
  end.

Fixpoint str_repeat (s : string) (n : nat) : string :=
  match n with
  | O => EmptyString
  | S n => String.append s (str_repeat s n)
  end.

(** [a - b]. *)
Definition py_sub (a b : PyVal) : result PyVal :=
  match as_number a, as_number b with
  | Some x, Some y => arith Z.sub PrimFloat.sub x y
  | _, _ => Raise TypeError
  end.

(** [a + b]: numbers add, strings concatenate. *)
Definition py_add (a b : PyVal) : result PyVal :=
  match a, b with
  | PyStr s, PyStr t => Ok (PyStr (String.append s t))
  | _, _ =>
      match as_number a, as_number b with
      | Some x, Some y => arith Z.add PrimFloat.add x y
      | _, _ => Raise TypeError
      end
  end.

(** [a * b]: numbers multiply, a string times an integer repeats. *)
Definition py_mul (a b : PyVal) : result PyVal :=
  match a, as_number a, b, as_number b with
  | PyStr s, _, _, Some (NInt n) => Ok (PyStr (str_repeat s (Z.to_nat n)))
  | _, Some (NInt n), PyStr s, _ => Ok (PyStr (str_repeat s (Z.to_nat n)))
  | _, Some x, _, Some y => arith Z.mul PrimFloat.mul x y
  | _, _, _, _ => Raise TypeError
  end.

(** [range(n)]: [n] must be an integer. *)
Definition py_range (n : PyVal) : result (list nat) :=
  match as_number n with
  | Some (NInt z) => Ok (seq 0 (Z.to_nat z))
  | _ => Raise TypeError
  end.

(** [value[k]] on a parameter entry: a mapping looks the key up, a list
    does not take a string index. *)
Definition subscript (value : ParamSpec) (k : string) : result PyVal :=
  match value with
  | Range entry => getitem entry k
  | Values _ => Raise TypeError
  end.

End Python.

Import Python.

(** ** Stateful computations that may raise *)

(** A computation over a state [S]: the result or the exception raised, and
    the state it leaves behind either way. *)
Record M (S A : Type) : Type := mkM { run : S -> result A * S }.
Arguments mkM {S A} run.
Arguments run {S A} m s.

Definition lift {S A} (r : result A) : M S A := mkM (fun s => (r, s)).
Definition get {S} : M S S := mkM (fun s => (Ok s, s)).
Definition put {S} (s : S) : M S unit := mkM (fun _ => (Ok tt, s)).

#[global] Instance M_ret {S} : MRet (M S) := fun A a => mkM (fun s => (Ok a, s)).
#[global] Instance M_bind {S} : MBind (M S) := fun A B k m =>
  mkM (fun s =>
    match run m s with
    | (Ok a, s') => run (k a) s'
    | (Raise e, s') => (Raise e, s')
    end).

(** ** base_sampler.py and utils.py *)

Module base_sampler.

(** A sample: parameter name to value. *)
Abbreviation Sample := (list (string * PyVal)) (only parsing).

(** The fields of a sampler object; [_samples] is [None] until computed. *)
Record Sampler : Type := mkSampler {
  _data : SamplerData;
  _samples : option (list Sample)
}.

Definition set_samples (self : Sampler) (l : list Sample) : Sampler :=
  {| _data := _data self; _samples := Some l |}.

(** The object after its configuration mapping, which it shares with the
    caller, has been mutated into [d]. *)
Definition set_data (self : Sampler) (d : SamplerData) : Sampler :=
  {| _data := d; _samples := _samples self |}.

(** Modelled from the spec: [utils.log_and_raise_exception] is not among
    the sources; it logs the message and fails with a [SamplingError]
    that carries it. *)
Definition log_and_raise_exception {A} (msg : Message) : result A :=
  Raise (SamplingError msg).

(** Modelled from the spec: [BaseSampler.__init__] is not among the
    sources; it stores the configuration and leaves the sample cache
    "not yet computed". *)
Definition __init__ (data : SamplerData) : Sampler :=
  {| _data := data; _samples := None |}.

Definition data (self : Sampler) : SamplerData := _data self.


(** Both blocks of a configuration are well-formed dictionaries. *)
Definition data_wf (d : SamplerData) : Prop :=
  dict_wf (default [] (constants d)) /\ dict_wf (default [] (parameters d)).

Definition constants_keys (d : SamplerData) : list string :=
  default [] (keys <$> constants d).
Definition parameters_keys (d : SamplerData) : list string :=
  default [] (keys <$> parameters d).

(** Modelled from the spec: [_check_variables_existence] is not among the
    sources; it fails if neither [constants] nor [parameters] is present,
    or if [parameters] is present but empty. *)
Definition _check_variables_existence (self : Sampler) : result unit :=
  match constants (data self), parameters (data self) with
  | None, None => log_and_raise_exception VariablesMissing
  | _, Some [] => log_and_raise_exception ParametersEmpty
  | _, _ => Ok tt
  end.

(** Modelled from the spec: [_check_variables_for_dups] is not among the
    sources; it fails if any name appears in both [constants] and
    [parameters]. *)
Definition _check_variables_for_dups (self : Sampler) : result unit :=
  match filter (fun k => k ∈ parameters_keys (data self)) (constants_keys (data self)) with
  | [] => Ok tt
  | name :: _ => log_and_raise_exception (DuplicateVariable name)
  end.

(** Modelled from the spec: [_check_variables] is not among the sources;
    it runs the two shared primitives. *)
Definition _check_variables (self : Sampler) : result unit :=
  _check_variables_existence self ≫= fun _ => _check_variables_for_dups self.

(** Modelled from the spec: [BaseSampler.check_validity], which the range
    sampler calls first (line 70), is not among the sources.  The spec
    (4.4) has the construction of a range sampler require [num_samples] to
    be a positive integer, and no line of the sources checks it: the
    inherited check is modelled as making that check, failing with a
    [SamplingError] otherwise. *)
Definition check_validity (self : Sampler) : result unit :=
  match num_samples (data self) with
  | Some (PyInt z) =>
      if decide (0 < z)%Z then Ok tt
      else log_and_raise_exception (InvalidSampleCount (Some (PyInt z)))
  | value => log_and_raise_exception (InvalidSampleCount value)
  end.

(** Modelled from the spec: [is_valid] is not among the sources; it calls
    the variant's [check_validity], returns true on success and false if
    a [SamplingError] occurs; any other exception is not caught. *)
Definition is_valid (check : Sampler -> result unit) (self : Sampler) : result bool :=
  match check self with
  | Ok _ => Ok true
  | Raise (SamplingError _) => Ok false
  | Raise e => Raise e
  end.

End base_sampler.

Import base_sampler.

(** ** cross_product.py *)

Module cross_product.

Definition check_validity (self : Sampler) : result unit :=
  _check_variables_existence self ≫= fun _ => _check_variables_for_dups self.

Definition __init__ (data : SamplerData) : result Sampler :=
  let self := base_sampler.__init__ data in
  check_validity self ≫= fun _ => Ok self.

(** The [parameters] property; a missing block raises [KeyError], which
    is suppressed. *)
Definition parameters (self : Sampler) : list string :=
  let parameters := [] in
  let parameters :=
    match constants (data self) with
    | Some c => parameters ++ keys c
    | None => parameters
    end in
  let parameters :=
    match Python.parameters (data self) with
    | Some p => parameters ++ keys p
    | None => parameters
    end in
  parameters.

(** The inner loop: [new_sample[key] = sample[i]] for each
    [(i, key)] of [enumerate(self.parameters)]. *)
Fixpoint fill_sample (ikeys : list (nat * string)) (sample : list PyVal)
    (new_sample : Sample) : result Sample :=
  match ikeys with
  | [] => Ok new_sample
  | (i, key) :: rest =>
      match tuple_getitem sample i with
      | Ok v => fill_sample rest sample (dict_set key v new_sample)
      | Raise e => Raise e
      end
  end.

(** The outer loop over the product; [acc] is the content of the list
    that [self._samples] refers to, appended to in place. *)
Fixpoint sample_loop (sample_list : list (list PyVal)) (acc : list Sample)
    : M Sampler (list Sample) :=
  match sample_list with
  | [] => mret acc
  | sample :: rest =>
      self ← get;
      new_sample ← lift (fill_sample (enumerate (parameters self)) sample []);
      let acc := acc ++ [new_sample] in
      _ ← put (set_samples self acc);
      sample_loop rest acc
  end.

(** The axes of a configuration: one single-valued axis per constant,
    then the values of each parameter, in declaration order. *)
Definition axes (d : SamplerData) : list (list PyVal) :=
  ((fun kv => [kv.2]) <$> default [] (constants d))
  ++ ((fun kv => py_iter kv.2) <$> default [] (Python.parameters d)).

Definition get_samples : M Sampler (list Sample) :=
  self ← get;
  match _samples self with
  | Some samples => mret samples
  | None =>
      let product_list := [] in
      let product_list :=
        match constants (data self) with
        | Some c => product_list ++ ((fun kv => [kv.2]) <$> c)
        | None => product_list
        end in
      let product_list :=
        match Python.parameters (data self) with
        | Some p => product_list ++ ((fun kv => py_iter kv.2) <$> p)
        | None => product_list
        end in
      let sample_list := itertools_product product_list in
      _ ← put (set_samples self []);
      sample_loop sample_list []
  end.

End cross_product.

(** ** uqpipeline_sample.py *)

Module uqpipeline_sample.

Section UQPipelineSampler.

(** The [print] calls of [get_samples] and the [parameters] property, which
    rests on a helper of [base_sampler.py], are left out. *)

(** What lies outside the module: the state of the random number
    generator and of the process ([W], advanced by [random.random()]
    and by the backend), the parser behind [float(str)], and the name
    [sampler], which the import at the top of the module binds only
    when the backend is installed.  The backend is
    [sampler.LatinHyperCubeSampler.sample_points(num_points, box)]. *)
Variable W : Type.
Variable random_random : W -> PrimFloat.float * W.
Variable str_to_float : string -> option PrimFloat.float.
Variable sampler :
  option (PyVal -> list (list PyVal) -> W -> result (list (list PyVal)) * W).

(** [super().check_validity()]: [BaseSampler.check_validity] is not among
    the sources, and what it checks is left open. *)
Variable inherited_check_validity : Sampler -> result unit.

(** [float(v)]. *)
Definition py_float (v : PyVal) : result PrimFloat.float :=
  match v with
  | PyNone => Raise TypeError
  | PyBool b => float_of_int (if b then 1 else 0)
  | PyInt z => float_of_int z
  | PyFloat f => Ok f
  | PyStr s =>
      match str_to_float s with
      | Some f => Ok f
      | None => Raise ValueError
      end
  end.

(** [self.data["parameters"]] and [self.data["num_samples"]]. *)
Definition data_parameters (d : SamplerData) : result (list (string * ParamSpec)) :=
  match Python.parameters d with
  | Some p => Ok p
  | None => Raise (KeyError "parameters")
  end.

Definition data_num_samples (d : SamplerData) : result PyVal :=
  match num_samples d with
  | Some n => Ok n
  | None => Raise (KeyError "num_samples")
  end.

(** [try: float(value[bound]) except ValueError: log_and_raise(...)]. *)
Definition check_bound (value : ParamSpec) (bound : string) (msg : Message)
    : result unit :=
  match subscript value bound ≫= py_float with
  | Ok _ => Ok tt
  | Raise ValueError => log_and_raise_exception msg
  | Raise e => Raise e
  end.

Fixpoint check_loop (items : list (string * ParamSpec)) : result unit :=
  match items with
  | [] => Ok tt
  | (key, value) :: rest =>
      _ ← check_bound value "min" (NumericMinimum key value);
      _ ← check_bound value "max" (NumericMaximum key value);
      check_loop rest
  end.

Definition check_validity (self : Sampler) : result unit :=
  _ ← inherited_check_validity self;
  _ ← _check_variables self;
  _ ← match previous_samples (data self) with
      | Some _ => log_and_raise_exception PreviousSamplesUnsupported
      | None => Ok tt
      end;
  items ← data_parameters (data self);
  check_loop items.

Definition __init__ (data : SamplerData) : result Sampler :=
  let self := base_sampler.__init__ data in
  _ ← check_validity self;
  Ok self.

(** The state [get_samples] runs over: the object and the world. *)
Definition get_self : M (Sampler * W) Sampler := mkM (fun s => (Ok s.1, s)).
Definition put_self (self : Sampler) : M (Sampler * W) unit :=
  mkM (fun s => (Ok tt, (self, s.2))).
Definition random : M (Sampler * W) PyVal :=
  mkM (fun s => (Ok (PyFloat (random_random s.2).1), (s.1, (random_random s.2).2))).

(** [backend(num_points=..., box=...)]. *)
Definition call_backend
    (backend : PyVal -> list (list PyVal) -> W -> result (list (list PyVal)) * W)
    (num_points : PyVal) (box : list (list PyVal))
    : M (Sampler * W) (list (list PyVal)) :=
  mkM (fun s => ((backend num_points box s.2).1, (s.1, (backend num_points box s.2).2))).

(** Lines 141-144: the minimum, the width and the box of each entry. *)
Fixpoint bounds_loop (items : list (string * ParamSpec))
    (min_dict range_dict : list (string * PyVal)) (box : list (list PyVal))
    : result (list (string * PyVal) * list (string * PyVal) * list (list PyVal)) :=
  match items with
  | [] => Ok (min_dict, range_dict, box)
  | (key, value) :: rest =>
      lo ← subscript value "min";
      let min_dict := dict_set key lo min_dict in
      hi ← subscript value "max";
      lo' ← subscript value "min";
      width ← py_sub hi lo';
      let range_dict := dict_set key width range_dict in
      lo'' ← subscript value "min";
      hi' ← subscript value "max";
      bounds_loop rest min_dict range_dict (box ++ [[lo''; hi']])
  end.

(** Lines 148-150: one uniform draw per entry. *)
Fixpoint draw_sample (items : list (string * ParamSpec))
    (min_dict range_dict : list (string * PyVal))
    (random_dictionary : Sample) : M (Sampler * W) Sample :=
  match items with
  | [] => mret random_dictionary
  | (key, _) :: rest =>
      lo ← lift (getitem min_dict key);
      r ← random;
      width ← lift (getitem range_dict key);
      scaled ← lift (py_mul r width);
      v ← lift (py_add lo scaled);
      draw_sample rest min_dict range_dict (dict_set key v random_dictionary)
  end.

(** Lines 146-151. *)
Fixpoint draws_loop (indices : list nat) (items : list (string * ParamSpec))
    (min_dict range_dict : list (string * PyVal))
    (random_list : list Sample) : M (Sampler * W) (list Sample) :=
  match indices with
  | [] => mret random_list
  | _ :: rest =>
      random_dictionary ← draw_sample items min_dict range_dict [];
      draws_loop rest items min_dict range_dict (random_list ++ [random_dictionary])
  end.

(** Lines 165-167: [random_dictionary[key] = points[i][j]; j += 1]. *)
Fixpoint point_sample (items : list (string * ParamSpec))
    (points : list (list PyVal)) (i j : nat)
    (random_dictionary : Sample) : result Sample :=
  match items with
  | [] => Ok random_dictionary
  | (key, _) :: rest =>
      point ← tuple_getitem points i;
      v ← tuple_getitem point j;
      point_sample rest points i (S j) (dict_set key v random_dictionary)
  end.

(** Lines 162-168. *)
Fixpoint points_loop (indices : list nat) (items : list (string * ParamSpec))
    (points : list (list PyVal)) (random_list : list Sample)
    : result (list Sample) :=
  match indices with
  | [] => Ok random_list
  | i :: rest =>
      random_dictionary ← point_sample items points i 0 [];
      points_loop rest items points (random_list ++ [random_dictionary])
  end.

(** Lines 171-181: [acc] is the content of the list that
    [self._samples] refers to. *)
Fixpoint merge_loop (indices : list nat) (random_list : list Sample)
    (acc : list Sample) : M (Sampler * W) (list Sample) :=
  match indices with
  | [] => mret acc
  | i :: rest =>
      self ← get_self;
      let new_sample := [] in
      let new_sample :=
        match constants (data self) with
        | Some c => dict_update new_sample c
        | None => new_sample
        end in
      random_dictionary ← lift (tuple_getitem random_list i);
      let new_sample := dict_update new_sample random_dictionary in
      let acc := acc ++ [new_sample] in
      _ ← put_self (set_samples self acc);
      merge_loop rest random_list acc
  end.

Definition get_samples : M (Sampler * W) (list Sample) :=
  self ← get_self;
  match _samples self with
  | Some samples => mret samples
  | None =>
      _ ← put_self (set_samples self []);
      items ← lift (data_parameters (data self));
      '(min_dict, range_dict, box) ← lift (bounds_loop items [] [] []);
      n ← lift (data_num_samples (data self));
      indices ← lift (py_range n);
      random_list ← draws_loop indices items min_dict range_dict [];
      LatinHyperCubeSampler ←
        lift (match sampler with
              | Some backend => Ok backend
              | None => Raise (NameError "sampler")
              end);
      num_points ← lift (data_num_samples (data self));
      points ← call_backend LatinHyperCubeSampler num_points box;
      let random_list := [] in
      n ← lift (data_num_samples (data self));
      indices ← lift (py_range n);
      random_list ← lift (points_loop indices items points random_list);
      merge_loop (seq 0 (length random_list)) random_list []
  end.

End UQPipelineSampler.

(** Lines 15-21 and 185-186: what importing the module does.
    [path_exists] is [os.path.exists(UQPIPELINE_SAMPLE_PATH)] and [found]
    the module [sampling.sampler] when the import finds it (a
    [ModuleNotFoundError] is suppressed).  After the class, the body of
    the module goes on with statements that use [sampler], the first one
    being [my_sampler = sampler.LatinHyperCubeSampler]; [rest] is what
    these statements do with the backend.  The result is the pair of
    [UQPIPELINE_SAMPLE] and [sampler] once the import is over. *)
Definition import_module {B} (path_exists : bool) (found : option B)
    (rest : B -> result unit) : result (bool * option B) :=
  let UQPIPELINE_SAMPLE := false in
  let sampler := None in
  let (UQPIPELINE_SAMPLE, sampler) :=
    if path_exists
    then match found with
         | Some module => (true, Some module)
         | None => (UQPIPELINE_SAMPLE, sampler)
         end
    else (UQPIPELINE_SAMPLE, sampler) in
  match sampler with
  | Some backend => rest backend ≫= fun _ => Ok (UQPIPELINE_SAMPLE, sampler)
  | None => Raise (NameError "sampler")
  end.

End uqpipeline_sample.

(** ** samplers.py *)

Module samplers.

(** A sampler class as the factory uses it: the checks its [__init__]
    runs after [BaseSampler.__init__] (for the two variants among the
    sources, [self.check_validity()]), and its [check_validity]. *)
Record SamplerClass : Type := mkClass {
  cls_init_checks : Sampler -> result unit;
  cls_check_validity : Sampler -> result unit
}.

Definition CrossProductSampler : SamplerClass :=
  {| cls_init_checks := cross_product.check_validity;
     cls_check_validity := cross_product.check_validity |}.

(** The object store: a reference is the position of the object. *)
Abbreviation Heap := (list Sampler) (only parsing).

Section new_sampler.

(** The variants whose modules are not among the sources. *)
Variables BestCandidateSampler ColumnListSampler ListSampler
          CsvSampler RandomSampler CustomSampler : SamplerClass.

Definition SAMPLE_FUNCTIONS_DICT : gmap string SamplerClass :=
  list_to_map [
    ("best_candidate", BestCandidateSampler);
    ("column_list", ColumnListSampler);
    ("list", ListSampler);
    ("cross_product", CrossProductSampler);
    ("csv", CsvSampler);
    ("random", RandomSampler);
    ("custom", CustomSampler) ].

(** [cls(sampler_data)]: a new object, kept when [__init__] returns. *)
Definition construct (cls : SamplerClass) (sampler_data : SamplerData) : M Heap nat :=
  let self := base_sampler.__init__ sampler_data in
  _ ← lift (cls_init_checks cls self);
  mkM (fun h => (Ok (length h), h ++ [self])).

(** The object behind a reference; a reference that the store does
    not hold cannot arise. *)
Definition deref (r : nat) : M Heap Sampler :=
  mkM (fun h =>
    match h !! r with
    | Some self => (Ok self, h)
    | None => (Raise (NameError "self"), h)
    end).

(** The subscript [SAMPLE_FUNCTIONS_DICT[sampler_data['type']]] hashes
    the value: a string is looked up, another scalar is hashable and no
    key (the [KeyError] that the [try] catches), a list or a mapping is
    unhashable (a [TypeError], which it does not catch). *)
Definition new_sampler (sampler_data : SamplerData) : M Heap nat :=
  match type_ sampler_data with
  | None => lift (log_and_raise_exception (NoTypeEntry sampler_data))
  | Some (Scalar (PyStr type_name)) =>
      match SAMPLE_FUNCTIONS_DICT !! type_name with
      | None => lift (log_and_raise_exception (NotRecognized (PyStr type_name)))
      | Some sampler =>
          trial ← construct sampler sampler_data;
          self ← deref trial;
          valid ← lift (is_valid (cls_check_validity sampler) self);
          if valid : bool
          then construct sampler sampler_data
          else lift (log_and_raise_exception SamplerInvalid)
      end
  | Some (Scalar type_value) =>
      lift (log_and_raise_exception (NotRecognized type_value))
  | Some (Sequence _) | Some (Mapping _) => lift (Raise TypeError)
  end.

End new_sampler.

End samplers.

(** ** Configurations used as examples *)

Module examples.

(** [{type: cross_product, constants: {X1: 20},
      parameters: {X2: [5, 10], X3: [5, 10]}}]. *)
Definition cross_product_data : SamplerData :=
  {| type_ := Some (Scalar (PyStr "cross_product"));
     constants := Some [("X1", PyInt 20)];
     parameters := Some [("X2", Values [PyInt 5; PyInt 10]);
                         ("X3", Values [PyInt 5; PyInt 10])];
     num_samples := None;
     previous_samples := None |}.

(** The same with [X1] declared in both blocks. *)
Definition duplicate_data : SamplerData :=
  {| type_ := Some (Scalar (PyStr "cross_product"));
     constants := Some [("X1", PyInt 20)];
     parameters := Some [("X1", Values [PyInt 5; PyInt 10]);
                         ("X3", Values [PyInt 5; PyInt 10])];
     num_samples := None;
     previous_samples := None |}.

(** [{type: random, num_samples: n, parameters: {X2: {min: lo, max: 10}}}]. *)
Definition range_data (n : option PyVal) (lo : PyVal) : SamplerData :=
  {| type_ := Some (Scalar (PyStr "random"));
     constants := None;
     parameters := Some [("X2", Range [("min", lo); ("max", PyInt 10)])];
     num_samples := n;
     previous_samples := None |}.

(** A configuration of a type that is not registered. *)
Definition unknown_type_data : SamplerData :=
  {| type_ := Some (Scalar (PyStr "uqpipeline"));
     constants := Some [("X1", PyInt 20)];
     parameters := Some [("X2", Values [PyInt 5; PyInt 10])];
     num_samples := None;
     previous_samples := None |}.

(** A configuration whose [type] is the list [[cross_product]]. *)
Definition list_type_data : SamplerData :=
  {| type_ := Some (Sequence [PyStr "cross_product"]);
     constants := Some [("X1", PyInt 20)];
     parameters := Some [("X2", Values [PyInt 5; PyInt 10])];
     num_samples := None;
     previous_samples := None |}.

(** A variant that checks nothing, standing for a class whose module is
    not among the sources. *)
Definition unchecked : samplers.SamplerClass :=
  {| samplers.cls_init_checks := fun _ => Ok tt;
     samplers.cls_check_validity := fun _ => Ok tt |}.

(** The factory with the six other variants unchecked. *)
Definition new_sampler : SamplerData -> M (list Sampler) nat :=
  samplers.new_sampler unchecked unchecked unchecked unchecked unchecked unchecked.

End examples.

(** ** Notions used to state the properties *)

Module statements.

(** The value sequences of the [parameters] block, in declaration order. *)
Definition parameter_axes (d : SamplerData) : list (list PyVal) :=
  (fun kv => py_iter kv.2) <$> default [] (parameters d).

(** The sample that holds the constants and then, for each parameter in
    turn, the value chosen for it. *)
Definition sample_of (d : SamplerData) (choice : list PyVal) : list (string * PyVal) :=
  default [] (constants d) ++ zip (parameters_keys d) choice.

(** [float(v)] succeeds. *)
Definition converts (str_to_float : string -> option PrimFloat.float) (v : PyVal) : Prop :=
  exists f, uqpipeline_sample.py_float str_to_float v = Ok f.

(** An entry that the range sampler's validation lets through: a mapping
    whose [min] and [max] are present and convert to a float. *)
Definition accepted_entry (str_to_float : string -> option PrimFloat.float)
    (value : ParamSpec) : Prop :=
  exists entry lo hi,
    value = Range entry
    /\ dict_get entry "min" = Some lo /\ converts str_to_float lo
    /\ dict_get entry "max" = Some hi /\ converts str_to_float hi.

(** An entry with the bounds [lo] and [hi] from which [get_samples] can
    draw: the width [hi - lo] exists and, for every random number [r],
    so does [lo + r * (hi - lo)]. *)
Definition drawable (value : ParamSpec) (lo hi : PyVal) : Prop :=
  subscript value "min" = Ok lo
  /\ subscript value "max" = Ok hi
  /\ exists width,
       py_sub hi lo = Ok width
       /\ forall r, exists v, py_mul (PyFloat r) width ≫= py_add lo = Ok v.

(** The world after [n] calls of [random.random()]. *)
Fixpoint after_draws {W} (random_random : W -> PrimFloat.float * W) (n : nat) (w : W) : W :=
  match n with
  | O => w
  | S n => after_draws random_random n (random_random w).2
  end.

End statements.

(** * Properties *)

#[local] Arguments py_add : simpl never.
#[local] Arguments py_sub : simpl never.
#[local] Arguments py_mul : simpl never.
#[local] Arguments py_range : simpl never.
#[local] Arguments getitem : simpl never.
#[local] Arguments tuple_getitem : simpl never.
#[local] Arguments subscript : simpl never.

(** ** Running computations *)

Lemma run_bind {S A B} (m : M S A) (k : A -> M S B) (s : S) :
  run (m ≫= k) s =
  match run m s with
  | (Ok a, s') => run (k a) s'
  | (Raise e, s') => (Raise e, s')
  end.
Proof. reflexivity. Qed.

Lemma run_lift {S A} (r : result A) (s : S) : run (lift r) s = (r, s).
Proof. reflexivity. Qed.

Lemma run_ret {S A} (a : A) (s : S) : run (mret a) s = (Ok a, s).
Proof. reflexivity. Qed.

Lemma run_bind_ok {S A B} (m : M S A) (k : A -> M S B) (s s' : S) (b : B) :
  run (m ≫= k) s = (Ok b, s') ->
  exists a s1, run m s = (Ok a, s1) /\ run (k a) s1 = (Ok b, s').
Proof.
  rewrite run_bind. destruct (run m s) as [[a|e] s1]; [eauto | discriminate].
Qed.

(** Inverts a successful run of [m ≫= k] in [H]: [a] is the value of [m],
    [s] the state it leaves and [H1] its run; a lifted result leaves the
    state as it was. *)
Tactic Notation "bind_inv" hyp(H) "as" ident(a) ident(s) ident(H1) :=
  apply run_bind_ok in H as (a & s & H1 & H);
  try (rewrite run_lift in H1; injection H1 as H1 <-).

Lemma result_bind_ok {A B} (m : result A) (k : A -> result B) (b : B) :
  m ≫= k = Ok b -> exists a, m = Ok a /\ k a = Ok b.
Proof. destruct m as [a|e]; [eauto | discriminate]. Qed.

(** ** Dictionaries *)

Lemma keys_dict_set_new {V} (k : string) (v : V) (d : list (string * V)) :
  k ∉ keys d -> keys (dict_set k v d) = keys d ++ [k].
Proof.
  unfold keys. induction d as [|[k' v'] d IH]; intros Hk; simpl.
  - reflexivity.
  - apply not_elem_of_cons in Hk as [Hne Hk]. simpl in *.
    destruct (decide (k = k')) as [->|_]; [done|].
    simpl. f_equal. by apply IH.
Qed.

(** ** [itertools.product] *)

Lemma prod_nil : prod [] = 1.
Proof. reflexivity. Qed.

Lemma prod_cons (x : nat) (l : list nat) : prod (x :: l) = x * prod l.
Proof. reflexivity. Qed.

Lemma prod_app (l1 l2 : list nat) : prod (l1 ++ l2) = prod l1 * prod l2.
Proof.
  induction l1 as [|x l1 IH]; [rewrite prod_nil; simpl; lia|].
  rewrite <- app_comm_cons, !prod_cons, IH. lia.
Qed.

Lemma bind_singleton_fmap {A B} (g : A -> B) (l : list A) :
  (y ← l; [g y]) = g <$> l.
Proof. induction l as [|y l IH]; [done|]. rewrite bind_cons, IH. done. Qed.

Lemma product_step_length {A} (res : list (list A)) (pool : list A) :
  length (product_step res pool) = length res * length pool.
Proof.
  unfold product_step. induction res as [|x res IH]; [done|].
  rewrite bind_cons, length_app, IH, bind_singleton_fmap, length_fmap. done.
Qed.

Lemma foldl_product_step_length {A} (pools : list (list A)) (acc : list (list A)) :
  length (foldl product_step acc pools) = length acc * prod (length <$> pools).
Proof.
  revert acc. induction pools as [|p pools IH]; intros acc.
  - rewrite fmap_nil, prod_nil. simpl. lia.
  - rewrite fmap_cons, prod_cons. simpl. rewrite IH, product_step_length. lia.
Qed.

Lemma itertools_product_length {A} (pools : list (list A)) :
  length (itertools_product pools) = prod (length <$> pools).
Proof. unfold itertools_product. rewrite foldl_product_step_length. simpl. lia. Qed.

Lemma product_step_tuple_length {A} (n : nat) (res : list (list A)) (pool : list A) :
  Forall (fun t => length t = n) res ->
  Forall (fun t => length t = S n) (product_step res pool).
Proof.
  unfold product_step. induction 1 as [|x res Hx _ IH]; [constructor|].
  rewrite bind_cons. apply Forall_app. split; [|done].
  rewrite bind_singleton_fmap. apply Forall_fmap, Forall_forall. intros y _.
  simpl. rewrite length_app. simpl. lia.
Qed.

Lemma foldl_product_step_tuple_length {A} (pools : list (list A)) (n : nat)
    (acc : list (list A)) :
  Forall (fun t => length t = n) acc ->
  Forall (fun t => length t = n + length pools) (foldl product_step acc pools).
Proof.
  revert n acc. induction pools as [|p pools IH]; intros n acc Hacc; simpl.
  - by rewrite Nat.add_0_r.
  - replace (n + S (length pools)) with (S n + length pools) by lia.
    apply IH. by apply product_step_tuple_length.
Qed.

Lemma itertools_product_tuple_length {A} (pools : list (list A)) :
  Forall (fun t => length t = length pools) (itertools_product pools).
Proof.
  apply (foldl_product_step_tuple_length pools 0). by repeat constructor.
Qed.

Lemma list_bind_assoc {A B C} (f : A -> list B) (g : B -> list C) (l : list A) :
  (l ≫= f) ≫= g = l ≫= (fun x => f x ≫= g).
Proof.
  induction l as [|x l IH]; [done|].
  rewrite !bind_cons, bind_app, IH. done.
Qed.

Lemma foldl_product_step_lexicographic {A} (pools : list (list A)) (acc : list (list A)) :
  foldl product_step acc pools =
  a ← acc; (fun t => a ++ t) <$> lexicographic_product pools.
Proof.
  revert acc. induction pools as [|p pools IH]; intros acc.
  - simpl. induction acc as [|a acc IHa]; [done|].
    rewrite bind_cons, <- IHa. simpl. by rewrite app_nil_r.
  - simpl foldl. rewrite IH. unfold product_step.
    rewrite list_bind_assoc. apply list_bind_ext; [|done]. intros a.
    rewrite list_bind_assoc. simpl lexicographic_product.
    rewrite (list_bind_ext _
               (fun y => (fun t => a ++ y :: t) <$> lexicographic_product pools) p p);
      [| |done].
    + induction p as [|y p IHp]; [done|].
      rewrite !bind_cons, fmap_app, IHp, <- list_fmap_compose. done.
    + intros y. rewrite bind_singleton. apply list_fmap_ext. intros _ t _.
      by rewrite <- app_assoc.
Qed.

Lemma itertools_product_lexicographic {A} (pools : list (list A)) :
  itertools_product pools = lexicographic_product pools.
Proof.
  unfold itertools_product. rewrite foldl_product_step_lexicographic.
  rewrite bind_singleton. simpl. apply list_fmap_id.
Qed.

(** ** The cross-product sampler *)

Lemma enumerate_snd {A} (l : list A) : (enumerate l).*2 = l.
Proof.
  unfold enumerate. rewrite fmap_imap.
  rewrite (imap_ext _ (fun _ x => x)) by done.
  change (imap (const id) l = l).
  rewrite imap_const. apply list_fmap_id.
Qed.

Lemma enumerate_fst_lt {A} (l : list A) :
  Forall (fun ik => ik.1 < length l) (enumerate l).
Proof.
  apply Forall_lookup. intros i [j x] Hi. unfold enumerate in Hi.
  rewrite list_lookup_imap in Hi.
  destruct (l !! i) as [y|] eqn:Hl; simplify_eq/=.
  by apply lookup_lt_Some in Hl.
Qed.

Lemma fill_sample_total (ikeys : list (nat * string)) (sample : list PyVal)
    (acc : list (string * PyVal)) :
  Forall (fun ik => ik.1 < length sample) ikeys ->
  exists s, cross_product.fill_sample ikeys sample acc = Ok s.
Proof.
  revert acc. induction ikeys as [|[i k] rest IH]; intros acc Hlt; simpl.
  - eauto.
  - apply Forall_cons in Hlt as [Hi Hrest]. simpl in Hi.
    unfold tuple_getitem. destruct (lookup_lt_is_Some_2 sample i Hi) as [v ->].
    by apply IH.
Qed.

Lemma fill_sample_keys (ikeys : list (nat * string)) (sample : list PyVal)
    (acc s : list (string * PyVal)) :
  NoDup (keys acc ++ ikeys.*2) ->
  cross_product.fill_sample ikeys sample acc = Ok s ->
  keys s = keys acc ++ ikeys.*2.
Proof.
  revert acc. induction ikeys as [|[i k] rest IH]; intros acc Hnd Hs; simpl in *.
  - simplify_eq. by rewrite app_nil_r.
  - destruct (tuple_getitem sample i) as [v|e]; [|done].
    assert (k ∉ keys acc) as Hk.
    { apply NoDup_app in Hnd as (_ & Hdisj & _). intros Hin.
      apply (Hdisj k Hin). left. }
    apply IH in Hs.
    + rewrite Hs, keys_dict_set_new by done. by rewrite <- app_assoc.
    + rewrite keys_dict_set_new by done. by rewrite <- app_assoc.
Qed.

Lemma parameters_set_samples (self : Sampler) (l : list (list (string * PyVal))) :
  cross_product.parameters (set_samples self l) = cross_product.parameters self.
Proof. reflexivity. Qed.

Lemma parameters_keys_eq (self : Sampler) :
  cross_product.parameters self =
  constants_keys (data self) ++ parameters_keys (data self).
Proof.
  unfold cross_product.parameters, constants_keys, parameters_keys.
  destruct (constants (data self)), (parameters (data self)); simpl;
    by rewrite ?app_nil_r.
Qed.

Lemma axes_length (d : SamplerData) :
  length (cross_product.axes d) = length (constants_keys d ++ parameters_keys d).
Proof.
  unfold cross_product.axes, constants_keys, parameters_keys, keys.
  rewrite !length_app. destruct (constants d), (parameters d); simpl;
    by rewrite ?length_fmap.
Qed.

(** The loop of [get_samples] turns every tuple of the right length into
    one sample, in order. *)
Lemma sample_loop_spec (sample_list : list (list PyVal))
    (acc : list (list (string * PyVal))) (self : Sampler) :
  Forall (fun t => length t = length (cross_product.parameters self)) sample_list ->
  exists new self',
    run (cross_product.sample_loop sample_list acc) self = (Ok (acc ++ new), self')
    /\ Forall2 (fun t s =>
         cross_product.fill_sample (enumerate (cross_product.parameters self)) t [] = Ok s)
       sample_list new.
Proof.
  revert acc self. induction sample_list as [|t rest IH]; intros acc self Hlen.
  - exists [], self. rewrite app_nil_r. split; [done | constructor].
  - apply Forall_cons in Hlen as [Ht Hrest].
    destruct (fill_sample_total (enumerate (cross_product.parameters self)) t []) as [s Hs].
    { rewrite Ht. apply enumerate_fst_lt. }
    destruct (IH (acc ++ [s]) (set_samples self (acc ++ [s]))) as (new & self' & Hrun & Hall).
    { by rewrite parameters_set_samples. }
    exists (s :: new), self'. split.
    + simpl. rewrite Hs, Hrun. by rewrite <- app_assoc.
    + constructor; [done|]. by rewrite parameters_set_samples in Hall.
Qed.

Lemma get_samples_fresh (self : Sampler) :
  _samples self = None ->
  exists samples self',
    run cross_product.get_samples self = (Ok samples, self')
    /\ Forall2 (fun t s =>
         cross_product.fill_sample (enumerate (cross_product.parameters self)) t [] = Ok s)
       (itertools_product (cross_product.axes (data self))) samples.
Proof.
  intros Hnone.
  destruct (sample_loop_spec (itertools_product (cross_product.axes (data self))) []
              (set_samples self [])) as (new & self' & Hrun & Hall).
  { rewrite parameters_set_samples, parameters_keys_eq, <- axes_length.
    apply itertools_product_tuple_length. }
  exists new, self'. split; [|by rewrite parameters_set_samples in Hall].
  unfold cross_product.get_samples. simpl. rewrite Hnone. simpl.
  simpl in Hrun. rewrite <- Hrun. do 3 f_equal.
  unfold cross_product.axes.
  destruct (constants (data self)), (parameters (data self)); simpl;
    by rewrite ?app_nil_r.
Qed.

Lemma init_ok_inv (d : SamplerData) (self : Sampler) :
  cross_product.__init__ d = Ok self ->
  self = base_sampler.__init__ d
  /\ cross_product.check_validity (base_sampler.__init__ d) = Ok tt.
Proof.
  unfold cross_product.__init__. intros H.
  apply result_bind_ok in H as ([] & Hc & Hs). by simplify_eq.
Qed.

Lemma check_dups_disjoint (self : Sampler) (k : string) :
  _check_variables_for_dups self = Ok tt ->
  k ∈ constants_keys (data self) -> k ∉ parameters_keys (data self).
Proof.
  unfold _check_variables_for_dups. intros Hc Hk Hp.
  assert (k ∈ filter (fun k => k ∈ parameters_keys (data self))
                (constants_keys (data self))) as Hin
    by (apply list_elem_of_filter; done).
  destruct (filter _ _); [by apply elem_of_nil in Hin | discriminate].
Qed.

Lemma valid_parameters_NoDup (d : SamplerData) :
  data_wf d ->
  cross_product.check_validity (base_sampler.__init__ d) = Ok tt ->
  NoDup (cross_product.parameters (base_sampler.__init__ d)).
Proof.
  intros [Hc Hp] Hv. rewrite parameters_keys_eq. simpl.
  unfold cross_product.check_validity in Hv.
  apply result_bind_ok in Hv as ([] & _ & Hd).
  apply NoDup_app. split_and!.
  - unfold constants_keys. by destruct (constants d).
  - intros k. by apply (check_dups_disjoint _ k Hd).
  - unfold parameters_keys. by destruct (parameters d).
Qed.

Lemma prod_ones {A} (l : list A) : prod ((fun _ => 1) <$> l) = 1.
Proof. induction l as [|x l IH]; [done|]. rewrite fmap_cons, prod_cons, IH. done. Qed.

Lemma axes_lengths (d : SamplerData) :
  length <$> cross_product.axes d =
  ((fun _ => 1) <$> default [] (constants d))
  ++ ((fun kv => length (py_iter kv.2)) <$> default [] (parameters d)).
Proof.
  unfold cross_product.axes. rewrite fmap_app, <- !list_fmap_compose. done.
Qed.

(** C1. For the configuration of the docstring (constant [X1 = 20],
    parameters [X2] and [X3] over [[5, 10]]) construction succeeds and
    [get_samples()] returns the four samples
    [{X1:20,X2:5,X3:5}], [{X1:20,X2:5,X3:10}], [{X1:20,X2:10,X3:5}],
    [{X1:20,X2:10,X3:10}] in that order; in general the product is
    enumerated in lexicographic order, the first axis slowest and the last
    one fastest. *)
Theorem cross_product_example_samples :
  (exists self,
     cross_product.__init__ examples.cross_product_data = Ok self
     /\ (run cross_product.get_samples self).1 =
        Ok [ [("X1", PyInt 20); ("X2", PyInt 5); ("X3", PyInt 5)];
             [("X1", PyInt 20); ("X2", PyInt 5); ("X3", PyInt 10)];
             [("X1", PyInt 20); ("X2", PyInt 10); ("X3", PyInt 5)];
             [("X1", PyInt 20); ("X2", PyInt 10); ("X3", PyInt 10)] ])
  /\ (forall pools : list (list PyVal),
        itertools_product pools = lexicographic_product pools).
Proof.
  split.
  - eexists. split; reflexivity.
  - apply itertools_product_lexicographic.
Qed.

(** C2. For every configuration that the cross-product sampler accepts,
    [get_samples()] returns as many samples as the product of the lengths
    of the [parameters] value sequences; each constant contributes a
    factor of exactly 1. *)
Theorem cross_product_sample_count (d : SamplerData) (self : Sampler) :
  cross_product.__init__ d = Ok self ->
  exists samples self',
    run cross_product.get_samples self = (Ok samples, self')
    /\ length samples =
       prod (((fun _ => 1) <$> default [] (constants d))
             ++ ((fun kv => length (py_iter kv.2)) <$> default [] (parameters d)))
    /\ length samples =
       prod ((fun kv => length (py_iter kv.2)) <$> default [] (parameters d)).
Proof.
  intros [-> _]%init_ok_inv.
  destruct (get_samples_fresh (base_sampler.__init__ d)) as (samples & self' & Hrun & Hall);
    [done|].
  exists samples, self'. split; [done|].
  apply Forall2_length in Hall. rewrite <- Hall, itertools_product_length.
  simpl. rewrite axes_lengths. split; [done|].
  rewrite prod_app, prod_ones. lia.
Qed.

Lemma cross_product_sample_count_witness :
  cross_product.__init__ examples.cross_product_data
  = Ok (base_sampler.__init__ examples.cross_product_data)
  /\ exists samples self',
    run cross_product.get_samples (base_sampler.__init__ examples.cross_product_data)
    = (Ok samples, self')
    /\ length samples = prod ([1] ++ [2; 2])
    /\ length samples = prod [2; 2].
Proof.
  split; [reflexivity|].
  apply (cross_product_sample_count examples.cross_product_data). reflexivity.
Defined.

(** C3. For every well-formed configuration that the cross-product sampler
    accepts, the Parameter List is the keys of [constants] followed by the
    keys of [parameters], and the keys of every sample that [get_samples()]
    returns are exactly the Parameter List (in that order): none is
    missing, none is extra. *)
Theorem cross_product_sample_keys (d : SamplerData) (self : Sampler) :
  data_wf d ->
  cross_product.__init__ d = Ok self ->
  cross_product.parameters self = constants_keys d ++ parameters_keys d
  /\ exists samples self',
       run cross_product.get_samples self = (Ok samples, self')
       /\ Forall (fun s => keys s = cross_product.parameters self) samples.
Proof.
  intros Hwf [-> Hv]%init_ok_inv. split; [apply parameters_keys_eq|].
  destruct (get_samples_fresh (base_sampler.__init__ d)) as (samples & self' & Hrun & Hall);
    [done|].
  exists samples, self'. split; [done|].
  pose proof (valid_parameters_NoDup d Hwf Hv) as Hnd.
  clear Hrun. induction Hall as [|t s ts ss Hs _ IH]; [constructor|].
  constructor; [|done].
  apply fill_sample_keys in Hs.
  - by rewrite Hs, enumerate_snd.
  - by rewrite enumerate_snd.
Qed.

Lemma cross_product_sample_keys_witness :
  data_wf examples.cross_product_data
  /\ cross_product.__init__ examples.cross_product_data
     = Ok (base_sampler.__init__ examples.cross_product_data)
  /\ cross_product.parameters (base_sampler.__init__ examples.cross_product_data)
     = ["X1"] ++ ["X2"; "X3"]
  /\ exists samples self',
       run cross_product.get_samples (base_sampler.__init__ examples.cross_product_data)
       = (Ok samples, self')
       /\ Forall (fun s => keys s = cross_product.parameters
                             (base_sampler.__init__ examples.cross_product_data)) samples.
Proof.
  assert (data_wf examples.cross_product_data) as Hwf.
  { split; unfold dict_wf; simpl; refine (bool_decide_unpack _ _); vm_compute; exact I. }
  split; [exact Hwf|]. split; [reflexivity|].
  apply (cross_product_sample_keys examples.cross_product_data _ Hwf). reflexivity.
Defined.

(** ** The sample cache *)

Lemma cross_product_loop_cache (sample_list : list (list PyVal))
    (acc l : list (list (string * PyVal))) (self self' : Sampler) :
  _samples self = Some acc ->
  run (cross_product.sample_loop sample_list acc) self = (Ok l, self') ->
  _samples self' = Some l.
Proof.
  revert acc self. induction sample_list as [|t rest IH]; intros acc self Hc Hrun.
  - simpl in Hrun. by simplify_eq.
  - simpl in Hrun.
    destruct (cross_product.fill_sample _ t []) as [s|e]; [|done].
    by apply IH in Hrun.
Qed.

Lemma cross_product_cache (self self' : Sampler) (l : list (list (string * PyVal))) :
  run cross_product.get_samples self = (Ok l, self') -> _samples self' = Some l.
Proof.
  unfold cross_product.get_samples. simpl.
  destruct (_samples self) as [samples|] eqn:Hs; simpl.
  - intros. by simplify_eq.
  - by apply cross_product_loop_cache.
Qed.

Lemma cross_product_cached (self : Sampler) (l : list (list (string * PyVal))) :
  _samples self = Some l -> run cross_product.get_samples self = (Ok l, self).
Proof. intros Hs. unfold cross_product.get_samples. simpl. by rewrite Hs. Qed.

Section range_cache.

Variable W : Type.
Variable random_random : W -> PrimFloat.float * W.

Lemma draw_sample_self (items : list (string * ParamSpec))
    (min_dict range_dict acc : list (string * PyVal)) (st : Sampler * W) :
  (run (uqpipeline_sample.draw_sample W random_random items min_dict range_dict acc) st).2.1
  = st.1.
Proof.
  revert acc st. induction items as [|[key value] rest IH]; intros acc st; [done|].
  simpl. destruct (getitem min_dict key); [|done]. simpl.
  destruct (getitem range_dict key); [|done]. simpl.
  destruct (py_mul _ _); [|done]. simpl.
  destruct (py_add _ _); [|done]. simpl.
  by rewrite IH.
Qed.

Lemma draws_loop_self (indices : list nat) (items : list (string * ParamSpec))
    (min_dict range_dict : list (string * PyVal))
    (acc : list (list (string * PyVal))) (st : Sampler * W) :
  (run (uqpipeline_sample.draws_loop W random_random indices items
          min_dict range_dict acc) st).2.1
  = st.1.
Proof.
  revert acc st. induction indices as [|i rest IH]; intros acc st; [done|].
  simpl.
  pose proof (draw_sample_self items min_dict range_dict [] st) as Hd.
  destruct (run (uqpipeline_sample.draw_sample _ _ _ _ _ _) st) as [[s|e] st'];
    simpl in *; [|done].
  by rewrite IH.
Qed.

Lemma merge_loop_cache (indices : list nat)
    (random_list acc l : list (list (string * PyVal))) (st st' : Sampler * W) :
  _samples st.1 = Some acc ->
  run (uqpipeline_sample.merge_loop W indices random_list acc) st = (Ok l, st') ->
  _samples st'.1 = Some l.
Proof.
  revert acc st. induction indices as [|i rest IH]; intros acc st Hc Hrun.
  - simpl in Hrun. by simplify_eq.
  - simpl in Hrun. destruct (tuple_getitem random_list i) as [rd|e]; [|done].
    simpl in Hrun. by apply IH in Hrun.
Qed.

End range_cache.

Lemma range_cache W random_random sampler (st st' : Sampler * W)
    (l : list (list (string * PyVal))) :
  run (uqpipeline_sample.get_samples W random_random sampler) st = (Ok l, st') ->
  _samples st'.1 = Some l.
Proof.
  unfold uqpipeline_sample.get_samples. intros H.
  bind_inv H as self s0 Hself. injection Hself as <- <-.
  destruct (_samples st.1) as [samples|] eqn:Hs.
  - rewrite run_ret in H. by simplify_eq.
  - bind_inv H as u s1 Hput. injection Hput as _ <-.
    bind_inv H as items s2 Hitems.
    bind_inv H as bounds s3 Hbounds. destruct bounds as [[min_dict range_dict] box].
    bind_inv H as n s4 Hn.
    bind_inv H as indices s5 Hidx.
    bind_inv H as random_list s6 Hdraws.
    pose proof (draws_loop_self W random_random indices items min_dict range_dict []
                  (set_samples st.1 [], st.2)) as Hself.
    rewrite Hdraws in Hself. simpl in Hself.
    bind_inv H as backend s7 Hbackend.
    bind_inv H as num_points s8 Hnum.
    bind_inv H as points s9 Hpoints.
    unfold uqpipeline_sample.call_backend in Hpoints. simpl in Hpoints.
    injection Hpoints as _ <-.
    bind_inv H as n' s10 Hn'.
    bind_inv H as indices' s11 Hidx'.
    bind_inv H as random_list' s12 Hloop.
    apply merge_loop_cache in H; [done|]. simpl. by rewrite Hself.
Qed.

(** X17. What [get_samples()] has returned stays: for the cross-product
    sampler and for the range sampler alike, a successful call leaves the
    list it returns in the cache, and every later call returns that same
    list and leaves the object as it is, whatever the configuration has
    become in between (and, for the range sampler, whatever the random
    generator and the backend would answer).  This says nothing on
    whether the list returned first was computed. *)
Theorem get_samples_memoized :
  (forall (self self' : Sampler) (samples : list (list (string * PyVal))),
      run cross_product.get_samples self = (Ok samples, self') ->
      _samples self' = Some samples
      /\ forall d' : SamplerData,
           run cross_product.get_samples (set_data self' d')
           = (Ok samples, set_data self' d'))
  /\ (forall W random_random sampler (self self' : Sampler) (w w' : W)
        (samples : list (list (string * PyVal))),
      run (uqpipeline_sample.get_samples W random_random sampler) (self, w)
      = (Ok samples, (self', w')) ->
      _samples self' = Some samples
      /\ forall random_random' sampler' (d' : SamplerData) (w'' : W),
           run (uqpipeline_sample.get_samples W random_random' sampler')
               (set_data self' d', w'')
           = (Ok samples, (set_data self' d', w''))).
Proof.
  split.
  - intros self self' samples Hrun. apply cross_product_cache in Hrun.
    split; [done|]. intros d'. by apply cross_product_cached.
  - intros W rr sampler self self' w w' samples Hrun. apply range_cache in Hrun.
    simpl in Hrun. split; [done|]. intros rr' sampler' d' w''.
    unfold uqpipeline_sample.get_samples. rewrite run_bind. simpl.
    by rewrite Hrun.
Qed.

Lemma get_samples_memoized_witness :
  let self := base_sampler.__init__ examples.cross_product_data in
  let self' := (run cross_product.get_samples self).2 in
  exists samples,
    run cross_product.get_samples self = (Ok samples, self')
    /\ _samples self' = Some samples
    /\ run cross_product.get_samples (set_data self' examples.duplicate_data)
       = (Ok samples, set_data self' examples.duplicate_data).
Proof.
  intros self self'.
  assert (exists samples, run cross_product.get_samples self = (Ok samples, self'))
    as [samples Hrun] by (eexists; reflexivity).
  exists samples. split; [exact Hrun|].
  destruct (proj1 get_samples_memoized self self' samples Hrun) as [Hc Hagain].
  split; [exact Hc | exact (Hagain examples.duplicate_data)].
Defined.

(** ** The range sampler *)

Lemma run_bind_raise {S A B} (m : M S A) (k : A -> M S B) (s : S) :
  (forall a s1, run m s = (Ok a, s1) -> exists e, (run (k a) s1).1 = Raise e) ->
  exists e, (run (m ≫= k) s).1 = Raise e.
Proof.
  intros Hk. rewrite run_bind. destruct (run m s) as [[a|e] s1]; [|by exists e].
  by apply Hk.
Qed.

(** C4. Without a backend (the name [sampler] unbound) [get_samples()] on a
    new range sampler never returns: whatever the configuration, it
    raises; on [{type: random, num_samples: 3, parameters: {X2: {min: 5,
    max: 10}}}] it computes the uniform draws, drops them and raises
    [NameError] at [sampler.LatinHyperCubeSampler], leaving an empty list in
    the cache, which a second call then returns. *)
Theorem range_get_samples_without_backend :
  (forall W random_random (d : SamplerData) (w : W),
     exists e,
       (run (uqpipeline_sample.get_samples W random_random None)
            (base_sampler.__init__ d, w)).1 = Raise e)
  /\ (forall W random_random (w : W),
        let first :=
          run (uqpipeline_sample.get_samples W random_random None)
              (base_sampler.__init__
                 (examples.range_data (Some (PyInt 3)) (PyInt 5)), w) in
        first.1 = Raise (NameError "sampler")
        /\ (run (uqpipeline_sample.get_samples W random_random None) first.2).1
           = Ok []).
Proof.
  split.
  - intros W rr d w. unfold uqpipeline_sample.get_samples.
    apply run_bind_raise. intros self s0 Hself. injection Hself as <- <-.
    simpl _samples. cbv iota.
    apply run_bind_raise. intros _ s1 _.
    apply run_bind_raise. intros items s2 _.
    apply run_bind_raise. intros [[min_dict range_dict] box] s3 _.
    apply run_bind_raise. intros n s4 _.
    apply run_bind_raise. intros indices s5 _.
    apply run_bind_raise. intros random_list s6 _.
    rewrite run_bind, run_lift. eauto.
  - intros W rr w. split; reflexivity.
Qed.

(** C6. On the range sampler the first successful call of [get_samples()]
    need not compute anything: line 134 stores the empty list in the
    cache before the computation starts.  On [{type: random,
    num_samples: 3, parameters: {X2: {min: "5", max: 10}}}], which
    construction accepts once the inherited check has passed, the first
    call raises [TypeError] at [value["max"] - value["min"]] and leaves the
    empty list in the cache; the next call, the first one to succeed,
    returns that empty list without computing, whatever the generator and
    the backend are and also after the configuration has been replaced,
    while a new object on the configuration with [min: 5] answers with the
    three points of the backend. *)
Theorem range_first_success_not_computed :
  let bad := examples.range_data (Some (PyInt 3)) (PyStr "5") in
  let good := examples.range_data (Some (PyInt 3)) (PyInt 5) in
  let self := base_sampler.__init__ bad in
  let backend := fun (_ : PyVal) (_ : list (list PyVal)) (w : unit) =>
    (Ok [[PyInt 6]; [PyInt 7]; [PyInt 8]], w) in
  let random_random := fun w : unit => (PrimFloat.zero, w) in
  (forall f, uqpipeline_sample.__init__ (fun _ => Some f) (fun _ => Ok tt) bad = Ok self)
  /\ (forall W random_random sampler (w : W),
        run (uqpipeline_sample.get_samples W random_random sampler) (self, w)
        = (Raise TypeError, (set_samples self [], w)))
  /\ (forall W random_random sampler (d' : SamplerData) (w : W),
        run (uqpipeline_sample.get_samples W random_random sampler)
            (set_data (set_samples self []) d', w)
        = (Ok [], (set_data (set_samples self []) d', w)))
  /\ run (uqpipeline_sample.get_samples unit random_random (Some backend))
         (set_data (set_samples self []) good, tt)
     = (Ok [], (set_data (set_samples self []) good, tt))
  /\ (run (uqpipeline_sample.get_samples unit random_random (Some backend))
          (base_sampler.__init__ good, tt)).1
     = Ok [[("X2", PyInt 6)]; [("X2", PyInt 7)]; [("X2", PyInt 8)]].
Proof.
  intros bad good self backend random_random. split_and!.
  - intros f. reflexivity.
  - intros W rr sampler w. reflexivity.
  - intros W rr sampler d' w. reflexivity.
  - reflexivity.
  - vm_compute. reflexivity.
Qed.

(** C7. On [{type: random, num_samples: 3, parameters: {X2: {min: None,
    max: 10}}}], whose minimum cannot convert to a number, construction
    does not fail with a [SamplingError]: once the inherited check has
    passed, whatever it checks, [float(None)] raises [TypeError], which
    [check_validity] does not catch. *)
Theorem range_init_none_minimum (str_to_float : string -> option PrimFloat.float)
    (inherited : Sampler -> result unit) :
  inherited (base_sampler.__init__ (examples.range_data (Some (PyInt 3)) PyNone))
  = Ok tt ->
  uqpipeline_sample.__init__ str_to_float inherited
    (examples.range_data (Some (PyInt 3)) PyNone)
  = Raise TypeError.
Proof.
  intros Hinh. unfold uqpipeline_sample.__init__, uqpipeline_sample.check_validity.
  rewrite Hinh. reflexivity.
Qed.

Lemma range_init_none_minimum_witness :
  uqpipeline_sample.__init__ (fun _ => None) (fun _ => Ok tt)
    (examples.range_data (Some (PyInt 3)) PyNone)
  = Raise TypeError.
Proof.
  apply (range_init_none_minimum (fun _ => None) (fun _ => Ok tt)). reflexivity.
Defined.

Lemma check_bound_string str_to_float (entry : list (string * PyVal))
    (bound s : string) (msg : Message) :
  dict_get entry bound = Some (PyStr s) ->
  str_to_float s = None ->
  uqpipeline_sample.check_bound str_to_float (Range entry) bound msg
  = Raise (SamplingError msg).
Proof.
  intros Hget Hs. unfold uqpipeline_sample.check_bound, subscript, getitem.
  rewrite Hget. simpl. by rewrite Hs.
Qed.

Lemma check_loop_app str_to_float (before after : list (string * ParamSpec)) :
  uqpipeline_sample.check_loop str_to_float before = Ok tt ->
  uqpipeline_sample.check_loop str_to_float (before ++ after)
  = uqpipeline_sample.check_loop str_to_float after.
Proof.
  induction before as [|[key value] before IH]; intros Hb; [done|].
  simpl in *.
  destruct (uqpipeline_sample.check_bound _ value "min" _) as [[]|e]; [|done].
  simpl in *.
  destruct (uqpipeline_sample.check_bound _ value "max" _) as [[]|e]; [|done].
  simpl in *. by apply IH.
Qed.

(** X1. What the numeric checks do catch: on a configuration that passes the
    inherited checks and asks for no previous samples, if the entries
    before [key] pass and the minimum of [key] is a string that does not
    parse as a number, construction fails with the [SamplingError] that
    names [key] and its entry; likewise for the maximum when the minimum
    converts. *)
Theorem range_init_string_bound str_to_float
    (inherited : Sampler -> result unit) (d : SamplerData)
    (before after : list (string * ParamSpec)) (key : string)
    (entry : list (string * PyVal)) (s : string) :
  inherited (base_sampler.__init__ d) = Ok tt ->
  _check_variables (base_sampler.__init__ d) = Ok tt ->
  previous_samples d = None ->
  parameters d = Some (before ++ (key, Range entry) :: after) ->
  uqpipeline_sample.check_loop str_to_float before = Ok tt ->
  str_to_float s = None ->
  (dict_get entry "min" = Some (PyStr s) ->
   uqpipeline_sample.__init__ str_to_float inherited d
   = Raise (SamplingError (NumericMinimum key (Range entry))))
  /\ (uqpipeline_sample.check_bound str_to_float (Range entry) "min"
        (NumericMinimum key (Range entry)) = Ok tt ->
      dict_get entry "max" = Some (PyStr s) ->
      uqpipeline_sample.__init__ str_to_float inherited d
      = Raise (SamplingError (NumericMaximum key (Range entry)))).
Proof.
  intros Hinh Hvars Hprev Hparams Hbefore Hs.
  assert (uqpipeline_sample.__init__ str_to_float inherited d =
          (uqpipeline_sample.check_loop str_to_float ((key, Range entry) :: after)
           ≫= fun _ => Ok (base_sampler.__init__ d))) as ->.
  { unfold uqpipeline_sample.__init__, uqpipeline_sample.check_validity.
    rewrite Hinh. simpl. rewrite Hvars. simpl. rewrite Hprev. simpl.
    unfold uqpipeline_sample.data_parameters. rewrite Hparams. simpl.
    by rewrite check_loop_app. }
  split.
  - intros Hmin. simpl.
    rewrite (check_bound_string _ _ _ s _ Hmin Hs). done.
  - intros Hmin Hmax. simpl. rewrite Hmin. simpl.
    rewrite (check_bound_string _ _ _ s _ Hmax Hs). done.
Qed.

Lemma range_init_string_bound_witness :
  uqpipeline_sample.__init__ (fun _ => None) (fun _ => Ok tt)
    (examples.range_data (Some (PyInt 3)) (PyStr "abc"))
  = Raise (SamplingError
             (NumericMinimum "X2" (Range [("min", PyStr "abc"); ("max", PyInt 10)]))).
Proof.
  apply (range_init_string_bound (fun _ => None) (fun _ => Ok tt)
           (examples.range_data (Some (PyInt 3)) (PyStr "abc"))
           [] [] "X2" [("min", PyStr "abc"); ("max", PyInt 10)] "abc");
    reflexivity.
Defined.





(** ** The factory *)

Section factory.

Variables BestCandidateSampler ColumnListSampler ListSampler
          CsvSampler RandomSampler CustomSampler : samplers.SamplerClass.

#[local] Abbreviation SAMPLE_FUNCTIONS_DICT :=
  (samplers.SAMPLE_FUNCTIONS_DICT BestCandidateSampler ColumnListSampler
     ListSampler CsvSampler RandomSampler CustomSampler).
#[local] Abbreviation new_sampler :=
  (samplers.new_sampler BestCandidateSampler ColumnListSampler
     ListSampler CsvSampler RandomSampler CustomSampler).

Lemma registry_cross_product :
  SAMPLE_FUNCTIONS_DICT !! "cross_product" = Some samplers.CrossProductSampler.
Proof. reflexivity. Qed.

Lemma registry_unknown (t : string) :
  t ∉ ["best_candidate"; "column_list"; "list"; "cross_product"; "csv";
       "random"; "custom"] ->
  SAMPLE_FUNCTIONS_DICT !! t = None.
Proof. intros Ht. by apply not_elem_of_list_to_map_1. Qed.

Lemma construct_run (cls : samplers.SamplerClass) (d : SamplerData)
    (h : samplers.Heap) :
  run (samplers.construct cls d) h =
  match samplers.cls_init_checks cls (base_sampler.__init__ d) with
  | Ok _ => (Ok (length h), h ++ [base_sampler.__init__ d])
  | Raise e => (Raise e, h)
  end.
Proof.
  unfold samplers.construct. rewrite run_bind, run_lift.
  by destruct (samplers.cls_init_checks cls _).
Qed.

Lemma deref_last (h : samplers.Heap) (self : Sampler) :
  run (samplers.deref (length h)) (h ++ [self]) = (Ok self, h ++ [self]).
Proof.
  unfold samplers.deref. cbn [run].
  by rewrite lookup_app_r, Nat.sub_diag by lia.
Qed.

Lemma new_sampler_registered (d : SamplerData) (h : samplers.Heap)
    (t : string) (cls : samplers.SamplerClass) :
  type_ d = Some (Scalar (PyStr t)) ->
  SAMPLE_FUNCTIONS_DICT !! t = Some cls ->
  run (new_sampler d) h =
  match samplers.cls_init_checks cls (base_sampler.__init__ d) with
  | Raise e => (Raise e, h)
  | Ok _ =>
      match is_valid (samplers.cls_check_validity cls) (base_sampler.__init__ d) with
      | Raise e => (Raise e, h ++ [base_sampler.__init__ d])
      | Ok false =>
          (Raise (SamplingError SamplerInvalid), h ++ [base_sampler.__init__ d])
      | Ok true =>
          (Ok (S (length h)), h ++ [base_sampler.__init__ d; base_sampler.__init__ d])
      end
  end.
Proof.
  intros Ht Hcls. unfold samplers.new_sampler. rewrite Ht. cbv beta iota.
  rewrite Hcls.
  rewrite run_bind, construct_run.
  destruct (samplers.cls_init_checks cls _) as [[]|e] eqn:Hinit; [|done].
  rewrite run_bind, deref_last, run_bind, run_lift.
  destruct (is_valid _ _) as [[|]|e]; [|done..].
  rewrite construct_run, Hinit, length_app. simpl.
  rewrite <- app_assoc. do 2 f_equal. lia.
Qed.

Lemma cross_product_check_error (self : Sampler) (e : Exception) :
  cross_product.check_validity self = Raise e ->
  exists msg, e = SamplingError msg /\ msg <> SamplerInvalid.
Proof.
  unfold cross_product.check_validity, _check_variables_existence,
    _check_variables_for_dups, log_and_raise_exception.
  destruct (constants (data self)), (parameters (data self)) as [[|]|]; simpl;
    try destruct (filter _ _); intros; simplify_eq; eauto.
Qed.

(** X16. Without [type], or with a [type] that is a scalar (a string, a
    number, a boolean or null) other than the seven registered names
    ([best_candidate], [column_list], [list], [cross_product], [csv],
    [random], [custom]), the factory fails with a [SamplingError] that
    tells which, and creates no object. *)
Theorem new_sampler_unknown_type (d : SamplerData) (h : list Sampler) :
  type_ d = None
  \/ (exists v, type_ d = Some (Scalar v)
       /\ v ∉ PyStr <$> ["best_candidate"; "column_list"; "list"; "cross_product";
                        "csv"; "random"; "custom"]) ->
  exists msg,
    run (new_sampler d) h = (Raise (SamplingError msg), h)
    /\ (msg = NoTypeEntry d
        \/ exists v, type_ d = Some (Scalar v) /\ msg = NotRecognized v).
Proof.
  intros [Hnone | (v & Hv & Hnotin)]; unfold samplers.new_sampler.
  - rewrite Hnone. eauto.
  - rewrite Hv. destruct v as [| | | |t]; try (eexists; split; [reflexivity|eauto]).
    rewrite registry_unknown.
    + eexists. split; [reflexivity|eauto].
    + intros Hin. apply Hnotin. by apply list_elem_of_fmap_2.
Qed.

(** C9. A [type] that is a list or a mapping is none of the seven
    registered names, yet the factory does not fail with a
    [SamplingError]: hashing the value for the registry lookup raises
    [TypeError], which [except KeyError] does not catch. *)
Theorem new_sampler_unhashable_type (d : SamplerData) (h : list Sampler) :
  (exists l, type_ d = Some (Sequence l))
  \/ (exists entry, type_ d = Some (Mapping entry)) ->
  run (new_sampler d) h = (Raise TypeError, h).
Proof.
  intros [[l Ht] | [entry Ht]]; unfold samplers.new_sampler; by rewrite Ht.
Qed.

(** C10. Whenever the factory returns, it has constructed the variant
    twice: the store has grown by the trial instance, on which
    [is_valid()] was called, and then by a second instance; the
    reference returned is the second one, not the trial, and that object
    holds the configuration and no sample cache yet. *)
Theorem new_sampler_constructs_twice (d : SamplerData) (h h' : list Sampler)
    (r : nat) :
  run (new_sampler d) h = (Ok r, h') ->
  exists trial fresh,
    h' = h ++ [trial; fresh]
    /\ h' !! length h = Some trial
    /\ r = S (length h)
    /\ h' !! r = Some fresh
    /\ _data fresh = d
    /\ _samples fresh = None.
Proof.
  intros Hrun.
  destruct (type_ d) as [[[| | | |t]| |]|] eqn:Ht;
    try (unfold samplers.new_sampler in Hrun; by rewrite Ht in Hrun).
  destruct (SAMPLE_FUNCTIONS_DICT !! t) as [cls|] eqn:Hcls;
    [|unfold samplers.new_sampler in Hrun; rewrite Ht in Hrun; cbv beta iota in Hrun;
      by rewrite Hcls in Hrun].
  rewrite (new_sampler_registered d h t cls Ht Hcls) in Hrun.
  destruct (samplers.cls_init_checks cls _) as [[]|e]; [|done].
  destruct (is_valid _ _) as [[|]|e]; [|done..].
  injection Hrun as <- <-.
  exists (base_sampler.__init__ d), (base_sampler.__init__ d).
  split_and!; try done.
  - by rewrite lookup_app_r, Nat.sub_diag by lia.
  - rewrite lookup_app_r by lia. by replace (S (length h) - length h) with 1 by lia.
Qed.

(** C5, as the code has it: when the constructor of the registered
    variant fails, the factory fails with that very exception and creates
    no object; for the cross-product sampler it is the [SamplingError] of
    the failed check with its own message, never the generic "sampler
    invalid" one. *)
Theorem new_sampler_construction_failure (d : SamplerData) (h : list Sampler)
    (t : string) (cls : samplers.SamplerClass) (e : Exception) :
  type_ d = Some (Scalar (PyStr t)) ->
  SAMPLE_FUNCTIONS_DICT !! t = Some cls ->
  samplers.cls_init_checks cls (base_sampler.__init__ d) = Raise e ->
  run (new_sampler d) h = (Raise e, h)
  /\ (t = "cross_product" ->
      cross_product.__init__ d = Raise e
      /\ exists msg, e = SamplingError msg /\ msg <> SamplerInvalid).
Proof.
  intros Ht Hcls Hinit. split.
  - by rewrite (new_sampler_registered d h t cls Ht Hcls), Hinit.
  - intros ->. rewrite registry_cross_product in Hcls. simplify_eq. simpl in Hinit.
    split; [|by eapply cross_product_check_error].
    unfold cross_product.__init__. by rewrite Hinit.
Qed.

End factory.

Lemma new_sampler_unknown_type_witness :
  (type_ examples.unknown_type_data = None
   \/ (exists v, type_ examples.unknown_type_data = Some (Scalar v)
        /\ v ∉ PyStr <$> ["best_candidate"; "column_list"; "list"; "cross_product";
                         "csv"; "random"; "custom"]))
  /\ exists msg,
       run (examples.new_sampler examples.unknown_type_data) []
       = (Raise (SamplingError msg), [])
       /\ (msg = NoTypeEntry examples.unknown_type_data
           \/ exists v, type_ examples.unknown_type_data = Some (Scalar v)
                        /\ msg = NotRecognized v).
Proof.
  assert (type_ examples.unknown_type_data = None
          \/ (exists v, type_ examples.unknown_type_data = Some (Scalar v)
               /\ v ∉ PyStr <$> ["best_candidate"; "column_list"; "list";
                                "cross_product"; "csv"; "random"; "custom"])) as Hyp.
  { right. exists (PyStr "uqpipeline"). split; [reflexivity|].
    intros Hin. apply list_elem_of_fmap in Hin as (t & Ht & Hin).
    injection Ht as <-. revert Hin.
    refine (bool_decide_unpack _ _). vm_compute. exact I. }
  split; [exact Hyp|].
  exact (new_sampler_unknown_type examples.unchecked examples.unchecked
           examples.unchecked examples.unchecked examples.unchecked
           examples.unchecked examples.unknown_type_data [] Hyp).
Defined.

Lemma new_sampler_unhashable_type_witness :
  run (examples.new_sampler examples.list_type_data) [] = (Raise TypeError, []).
Proof.
  apply (new_sampler_unhashable_type examples.unchecked examples.unchecked
           examples.unchecked examples.unchecked examples.unchecked
           examples.unchecked examples.list_type_data []).
  left. by eexists.
Defined.

Lemma new_sampler_constructs_twice_witness :
  run (examples.new_sampler examples.cross_product_data) []
  = (Ok 1, [base_sampler.__init__ examples.cross_product_data;
            base_sampler.__init__ examples.cross_product_data])
  /\ exists trial fresh,
       [base_sampler.__init__ examples.cross_product_data;
        base_sampler.__init__ examples.cross_product_data] = [] ++ [trial; fresh]
       /\ [base_sampler.__init__ examples.cross_product_data;
           base_sampler.__init__ examples.cross_product_data] !! 0 = Some trial
       /\ 1 = 1
       /\ [base_sampler.__init__ examples.cross_product_data;
           base_sampler.__init__ examples.cross_product_data] !! 1 = Some fresh
       /\ _data fresh = examples.cross_product_data
       /\ _samples fresh = None.
Proof.
  assert (run (examples.new_sampler examples.cross_product_data) []
          = (Ok 1, [base_sampler.__init__ examples.cross_product_data;
                    base_sampler.__init__ examples.cross_product_data])) as Hrun
    by reflexivity.
  split; [exact Hrun|].
  exact (new_sampler_constructs_twice examples.unchecked examples.unchecked
           examples.unchecked examples.unchecked examples.unchecked
           examples.unchecked examples.cross_product_data [] _ 1 Hrun).
Defined.

Lemma new_sampler_construction_failure_witness :
  type_ examples.duplicate_data = Some (Scalar (PyStr "cross_product"))
  /\ samplers.cls_init_checks samplers.CrossProductSampler
       (base_sampler.__init__ examples.duplicate_data)
     = Raise (SamplingError (DuplicateVariable "X1"))
  /\ run (examples.new_sampler examples.duplicate_data) []
     = (Raise (SamplingError (DuplicateVariable "X1")), [])
  /\ ("cross_product" = "cross_product" ->
      cross_product.__init__ examples.duplicate_data
      = Raise (SamplingError (DuplicateVariable "X1"))
      /\ exists msg, SamplingError (DuplicateVariable "X1") = SamplingError msg
                     /\ msg <> SamplerInvalid).
Proof.
  split; [reflexivity|]. split; [reflexivity|].
  apply (new_sampler_construction_failure examples.unchecked examples.unchecked
           examples.unchecked examples.unchecked examples.unchecked
           examples.unchecked examples.duplicate_data [] "cross_product"
           samplers.CrossProductSampler); reflexivity.
Defined.

(** Counterexample to C5 as stated: with [X1] in both blocks the cross-product
    constructor raises the [SamplingError] of the duplicate check, and that
    exception, not the generic one, is what the factory raises, before any
    object exists on which [is_valid()] could be called. *)
Lemma new_sampler_duplicate_not_generic :
  cross_product.__init__ examples.duplicate_data
  = Raise (SamplingError (DuplicateVariable "X1"))
  /\ (forall c1 c2 c3 c4 c5 c6 (h : list Sampler),
        run (samplers.new_sampler c1 c2 c3 c4 c5 c6 examples.duplicate_data) h
        = (Raise (SamplingError (DuplicateVariable "X1")), h))
  /\ SamplingError (DuplicateVariable "X1") <> SamplingError SamplerInvalid.
Proof.
  split; [reflexivity|]. split; [|discriminate].
  intros c1 c2 c3 c4 c5 c6 h.
  by rewrite (new_sampler_registered c1 c2 c3 c4 c5 c6 examples.duplicate_data h
                "cross_product" samplers.CrossProductSampler).
Qed.

(** * Further properties *)

(** ** Dictionaries, continued *)

Lemma dict_set_new {V} (k : string) (v : V) (d : list (string * V)) :
  k ∉ keys d -> dict_set k v d = d ++ [(k, v)].
Proof.
  unfold keys. induction d as [|[k' v'] d IH]; intros Hk; simpl; [done|].
  apply not_elem_of_cons in Hk as [Hne Hk]. simpl in *.
  destruct (decide (k = k')) as [->|_]; [done|]. f_equal. by apply IH.
Qed.

Lemma dict_update_new {V} (d other : list (string * V)) :
  NoDup (keys d ++ keys other) -> dict_update d other = d ++ other.
Proof.
  unfold dict_update. revert d.
  induction other as [|[k v] other IH]; intros d Hnd; simpl.
  - by rewrite app_nil_r.
  - assert (k ∉ keys d) as Hk.
    { apply NoDup_app in Hnd as (_ & Hdisj & _). intros Hin.
      apply (Hdisj k Hin). left. }
    rewrite dict_set_new by done. rewrite IH.
    + by rewrite <- app_assoc.
    + unfold keys in *. rewrite fmap_app, <- app_assoc. done.
Qed.

Lemma dict_get_elem_of {V} (d : list (string * V)) (k : string) (v : V) :
  dict_wf d -> (k, v) ∈ d -> dict_get d k = Some v.
Proof.
  unfold dict_wf, keys. induction d as [|[k' v'] d IH]; intros Hnd Hin.
  - by apply elem_of_nil in Hin.
  - simpl in *. apply NoDup_cons in Hnd as [Hk' Hnd].
    apply elem_of_cons in Hin as [Heq|Hin].
    + simplify_eq. by rewrite decide_True.
    + rewrite decide_False; [by apply IH|].
      intros ->. apply Hk'. apply list_elem_of_fmap. by exists (k', v).
Qed.

Lemma dict_get_app_l {V} (d1 d2 : list (string * V)) (k : string) (v : V) :
  dict_get d1 k = Some v -> dict_get (d1 ++ d2) k = Some v.
Proof.
  induction d1 as [|[k' v'] d1 IH]; intros H; simpl in *; [done|].
  destruct (decide (k = k')); [done | by apply IH].
Qed.

Lemma dict_get_app_r {V} (d1 d2 : list (string * V)) (k : string) :
  k ∉ keys d1 -> dict_get (d1 ++ d2) k = dict_get d2 k.
Proof.
  unfold keys. induction d1 as [|[k' v'] d1 IH]; intros Hk; simpl in *; [done|].
  apply not_elem_of_cons in Hk as [Hne Hk].
  rewrite decide_False by done. by apply IH.
Qed.

(** ** The cross-product sampler, continued *)

Lemma fill_sample_zip (ks : list string) (sample : list PyVal) (n : nat)
    (acc : list (string * PyVal)) :
  NoDup (keys acc ++ ks) ->
  n + length ks <= length sample ->
  cross_product.fill_sample (imap (fun i x => (n + i, x)) ks) sample acc
  = Ok (acc ++ zip ks (drop n sample)).
Proof.
  revert n acc. induction ks as [|k ks IH]; intros n acc Hnd Hlen.
  - simpl. by rewrite app_nil_r.
  - rewrite imap_cons. simpl in *.
    destruct (lookup_lt_is_Some_2 sample n) as [v Hv]; [lia|].
    rewrite Nat.add_0_r. unfold tuple_getitem. rewrite Hv.
    assert (k ∉ keys acc) as Hk.
    { apply NoDup_app in Hnd as (_ & Hdisj & _). intros Hin.
      apply (Hdisj k Hin). left. }
    rewrite dict_set_new by done.
    rewrite (imap_ext _ (fun i x => (S n + i, x))) by (intros; simpl; f_equal; lia).
    rewrite IH.
    + rewrite (drop_S _ _ _ Hv). simpl. by rewrite <- app_assoc.
    + unfold keys in *. rewrite fmap_app, <- app_assoc. done.
    + lia.
Qed.

Lemma fill_sample_enumerate (ks : list string) (sample : list PyVal) :
  NoDup ks ->
  length sample = length ks ->
  cross_product.fill_sample (enumerate ks) sample [] = Ok (zip ks sample).
Proof.
  intros Hnd Hlen.
  apply (fill_sample_zip ks sample 0 []); [done | simpl; lia].
Qed.

Lemma Forall2_fun_fmap {A B} (f : A -> B) (l : list A) (k : list B) :
  Forall2 (fun x y => y = f x) l k -> k = f <$> l.
Proof. induction 1; simpl; [done | by f_equal]. Qed.

Lemma lexicographic_product_singletons {A} (vs : list A) (pools : list (list A)) :
  lexicographic_product (((fun v => [v]) <$> vs) ++ pools)
  = (fun t => vs ++ t) <$> lexicographic_product pools.
Proof.
  induction vs as [|v vs IH].
  - simpl. by rewrite list_fmap_id.
  - rewrite fmap_cons, <- app_comm_cons. simpl lexicographic_product.
    rewrite app_nil_r, IH, <- list_fmap_compose. done.
Qed.

Lemma lexicographic_product_length_each {A} (pools : list (list A)) :
  Forall (fun t => length t = length pools) (lexicographic_product pools).
Proof.
  rewrite <- itertools_product_lexicographic. apply itertools_product_tuple_length.
Qed.

Lemma fill_all_zip (ks : list string) (tuples : list (list PyVal))
    (samples : list (list (string * PyVal))) :
  NoDup ks ->
  Forall (fun t => length t = length ks) tuples ->
  Forall2 (fun t s => cross_product.fill_sample (enumerate ks) t [] = Ok s)
    tuples samples ->
  samples = zip ks <$> tuples.
Proof.
  intros Hnd Hlen Hall. induction Hall as [|t s ts ss Hs _ IH]; [done|].
  apply Forall_cons in Hlen as [Ht Hts].
  rewrite fill_sample_enumerate in Hs by done. simplify_eq.
  rewrite fmap_cons. f_equal. by apply IH.
Qed.

Lemma zip_constants (d : SamplerData) (t : list PyVal) :
  zip (constants_keys d ++ parameters_keys d) ((default [] (constants d)).*2 ++ t)
  = statements.sample_of d t.
Proof.
  unfold statements.sample_of, constants_keys, keys.
  destruct (constants d) as [c|]; simpl; [|done].
  rewrite (zip_with_app pair (c.*1) (parameters_keys d) (c.*2) t).
  - f_equal. apply zip_fst_snd.
  - by rewrite !length_fmap.
Qed.

Lemma axes_split (d : SamplerData) :
  cross_product.axes d
  = ((fun v => [v]) <$> (default [] (constants d)).*2) ++ statements.parameter_axes d.
Proof.
  unfold cross_product.axes, statements.parameter_axes.
  by rewrite <- list_fmap_compose.
Qed.

Lemma samples_explicit (d : SamplerData) (self : Sampler) :
  data_wf d ->
  cross_product.__init__ d = Ok self ->
  (run cross_product.get_samples self).1
  = Ok (statements.sample_of d
          <$> lexicographic_product (statements.parameter_axes d)).
Proof.
  intros Hwf [-> Hv]%init_ok_inv.
  destruct (get_samples_fresh (base_sampler.__init__ d))
    as (samples & self' & Hrun & Hall); [done|].
  rewrite Hrun. simpl. f_equal.
  apply fill_all_zip in Hall.
  - rewrite Hall, itertools_product_lexicographic, parameters_keys_eq. simpl.
    rewrite axes_split, lexicographic_product_singletons, <- list_fmap_compose.
    apply list_fmap_ext. intros _ t _. simpl. apply zip_constants.
  - by apply valid_parameters_NoDup.
  - rewrite parameters_keys_eq, <- axes_length. simpl.
    apply itertools_product_tuple_length.
Qed.

(** X2. For a well-formed configuration that the cross-product sampler
    accepts, [get_samples()] returns, for each choice of one value per
    parameter in lexicographic order (first parameter slowest), the sample
    made of the constants followed by the parameters with the chosen
    values. *)
Theorem cross_product_samples_explicit (d : SamplerData) (self : Sampler) :
  data_wf d ->
  cross_product.__init__ d = Ok self ->
  (run cross_product.get_samples self).1
  = Ok (statements.sample_of d
          <$> lexicographic_product (statements.parameter_axes d)).
Proof. apply samples_explicit. Qed.

Lemma cross_product_samples_explicit_witness :
  data_wf examples.cross_product_data
  /\ cross_product.__init__ examples.cross_product_data
     = Ok (base_sampler.__init__ examples.cross_product_data)
  /\ (run cross_product.get_samples
        (base_sampler.__init__ examples.cross_product_data)).1
     = Ok (statements.sample_of examples.cross_product_data
             <$> lexicographic_product
                   (statements.parameter_axes examples.cross_product_data)).
Proof.
  assert (data_wf examples.cross_product_data) as Hwf.
  { split; unfold dict_wf; simpl; refine (bool_decide_unpack _ _); vm_compute; exact I. }
  split; [exact Hwf|]. split; [reflexivity|].
  apply (cross_product_samples_explicit examples.cross_product_data _ Hwf). reflexivity.
Defined.

Lemma elem_of_lexicographic_product {A} (pools : list (list A)) (t : list A) :
  t ∈ lexicographic_product pools <-> Forall2 (fun v pool => v ∈ pool) t pools.
Proof.
  revert t. induction pools as [|pool rest IH]; intros t; simpl.
  - rewrite list_elem_of_singleton. split.
    + intros ->. constructor.
    + by intros ->%Forall2_nil_inv_r.
  - rewrite list_elem_of_bind. split.
    + intros (y & Ht & Hy). apply list_elem_of_fmap in Ht as (t' & -> & Ht').
      constructor; [done | by apply IH].
    + intros (y & t' & Hy & Ht' & ->)%Forall2_cons_inv_r.
      exists y. split; [|done]. apply list_elem_of_fmap. exists t'.
      split; [done | by apply IH].
Qed.

Lemma NoDup_lexicographic_product {A} (pools : list (list A)) :
  Forall NoDup pools -> NoDup (lexicographic_product pools).
Proof.
  induction 1 as [|pool rest Hpool _ IH]; simpl.
  - apply NoDup_singleton.
  - apply NoDup_bind; [| |done].
    + intros y1 y2 t _ _ (t1 & -> & _)%list_elem_of_fmap (t2 & Heq & _)%list_elem_of_fmap.
      by simplify_eq.
    + intros y _. apply NoDup_fmap_2_strong; [|done].
      intros t1 t2 _ _ Heq. by simplify_eq.
Qed.

Lemma sample_of_inj (d : SamplerData) (t1 t2 : list PyVal) :
  length t1 = length (parameters_keys d) ->
  length t2 = length (parameters_keys d) ->
  statements.sample_of d t1 = statements.sample_of d t2 -> t1 = t2.
Proof.
  unfold statements.sample_of. intros H1 H2 Heq.
  apply app_inv_head in Heq. apply (f_equal (fmap snd)) in Heq.
  rewrite !snd_zip in Heq by lia. done.
Qed.

Lemma parameter_axes_length (d : SamplerData) :
  length (statements.parameter_axes d) = length (parameters_keys d).
Proof.
  unfold statements.parameter_axes, parameters_keys, keys.
  destruct (parameters d); simpl; by rewrite ?length_fmap.
Qed.

(** X3. For a well-formed configuration that the cross-product sampler
    accepts, the samples are exactly the combinations: a sample is
    returned if and only if it is the constants followed by one value
    taken from each parameter's sequence; and when no sequence repeats a
    value, no sample is returned twice. *)
Theorem cross_product_all_combinations (d : SamplerData) (self : Sampler) :
  data_wf d ->
  cross_product.__init__ d = Ok self ->
  exists samples,
    (run cross_product.get_samples self).1 = Ok samples
    /\ (forall s,
          s ∈ samples <->
          exists choice,
            Forall2 (fun v axis => v ∈ axis) choice (statements.parameter_axes d)
            /\ s = statements.sample_of d choice)
    /\ (Forall NoDup (statements.parameter_axes d) -> NoDup samples).
Proof.
  intros Hwf Hinit. eexists. split; [by apply samples_explicit|].
  split.
  - intros s. rewrite list_elem_of_fmap. split.
    + intros (t & -> & Ht). exists t. split; [|done].
      by apply elem_of_lexicographic_product.
    + intros (t & Ht & ->). exists t. split; [done|].
      by apply elem_of_lexicographic_product.
  - intros Hnd. apply NoDup_fmap_2_strong; [|by apply NoDup_lexicographic_product].
    pose proof (lexicographic_product_length_each (statements.parameter_axes d)) as Hlen.
    rewrite Forall_forall in Hlen. intros t1 t2 H1 H2.
    apply sample_of_inj; rewrite <- parameter_axes_length; by apply Hlen.
Qed.

Lemma cross_product_all_combinations_witness :
  data_wf examples.cross_product_data
  /\ cross_product.__init__ examples.cross_product_data
     = Ok (base_sampler.__init__ examples.cross_product_data)
  /\ exists samples,
    (run cross_product.get_samples
       (base_sampler.__init__ examples.cross_product_data)).1 = Ok samples
    /\ (forall s,
          s ∈ samples <->
          exists choice,
            Forall2 (fun v axis => v ∈ axis) choice
              (statements.parameter_axes examples.cross_product_data)
            /\ s = statements.sample_of examples.cross_product_data choice)
    /\ (Forall NoDup (statements.parameter_axes examples.cross_product_data)
        -> NoDup samples).
Proof.
  assert (data_wf examples.cross_product_data) as Hwf.
  { split; unfold dict_wf; simpl; refine (bool_decide_unpack _ _); vm_compute; exact I. }
  split; [exact Hwf|]. split; [reflexivity|].
  apply (cross_product_all_combinations examples.cross_product_data _ Hwf). reflexivity.
Defined.

Lemma cross_product_loop_data (sample_list : list (list PyVal))
    (acc : list (list (string * PyVal))) (self : Sampler) :
  _data (run (cross_product.sample_loop sample_list acc) self).2 = _data self.
Proof.
  revert acc self. induction sample_list as [|t rest IH]; intros acc self; [done|].
  simpl. destruct (cross_product.fill_sample _ t []) as [s|e]; [|done].
  by rewrite IH.
Qed.

Lemma get_samples_total (self : Sampler) :
  exists samples self',
    run cross_product.get_samples self = (Ok samples, self')
    /\ _data self' = _data self
    /\ _samples self' = Some samples
    /\ (_samples self = None ->
        length samples = prod (length <$> cross_product.axes (data self))).
Proof.
  destruct (_samples self) as [l|] eqn:Hs.
  - exists l, self. rewrite (cross_product_cached self l Hs). done.
  - destruct (get_samples_fresh self Hs) as (samples & self' & Hrun & Hall).
    exists samples, self'. split; [done|]. split_and!.
    + assert (self' = (run cross_product.get_samples self).2) as -> by by rewrite Hrun.
      unfold cross_product.get_samples. simpl. rewrite Hs. simpl.
      by rewrite cross_product_loop_data.
    + by eapply cross_product_cache.
    + intros _. apply Forall2_length in Hall.
      by rewrite <- Hall, itertools_product_length.
Qed.

(** X4. On a configuration whose [constants] block, if there is one, is a
    mapping of names to scalars and whose [parameters] block, if there is
    one, maps each name to a list of scalars or to a mapping (the
    configurations [SamplerData] holds; a scalar parameter value or an
    empty [constants:] entry, on which the code raises, are outside),
    [get_samples()] of the cross-product sampler returns, validated or not
    (a name in both blocks, no block at all, a cache already filled): no
    [sample[i]] is out of range.  It leaves the list it returns in the
    cache and the configuration as it was; computed anew, the list has as
    many samples as the product of the lengths of all axes. *)
Theorem cross_product_get_samples_total (self : Sampler) :
  exists samples self',
    run cross_product.get_samples self = (Ok samples, self')
    /\ _data self' = _data self
    /\ _samples self' = Some samples
    /\ (_samples self = None ->
        length samples = prod (length <$> cross_product.axes (data self))).
Proof. apply get_samples_total. Qed.

(** X18. The cross-product sampler computes once: on the object that
    construction of a well-formed configuration gives, the first call of
    [get_samples()] computes the full product, returns it and leaves it in
    the cache with the configuration untouched, and every later call
    returns that same list and changes nothing, whatever the configuration
    has been replaced with in between. *)
Theorem cross_product_memoized (d : SamplerData) (self : Sampler) :
  data_wf d ->
  cross_product.__init__ d = Ok self ->
  let samples :=
    statements.sample_of d <$> lexicographic_product (statements.parameter_axes d) in
  run cross_product.get_samples self = (Ok samples, set_samples self samples)
  /\ forall d' : SamplerData,
       run cross_product.get_samples (set_data (set_samples self samples) d')
       = (Ok samples, set_data (set_samples self samples) d').
Proof.
  intros Hwf Hinit samples.
  pose proof (samples_explicit d self Hwf Hinit) as Hfirst.
  destruct (get_samples_total self) as (l & self' & Hrun & Hdata & Hcache & _).
  rewrite Hrun in Hfirst. simpl in Hfirst. injection Hfirst as ->.
  fold samples in Hrun, Hcache.
  assert (self' = set_samples self samples) as ->.
  { destruct self' as [d0 c0], self as [d1 c1]. simpl in *. by subst. }
  split; [done|]. intros d'. by apply cross_product_cached.
Qed.

Lemma cross_product_memoized_witness :
  let d := examples.cross_product_data in
  let samples :=
    [[("X1", PyInt 20); ("X2", PyInt 5); ("X3", PyInt 5)];
     [("X1", PyInt 20); ("X2", PyInt 5); ("X3", PyInt 10)];
     [("X1", PyInt 20); ("X2", PyInt 10); ("X3", PyInt 5)];
     [("X1", PyInt 20); ("X2", PyInt 10); ("X3", PyInt 10)]] in
  run cross_product.get_samples (base_sampler.__init__ d)
  = (Ok samples, set_samples (base_sampler.__init__ d) samples)
  /\ forall d' : SamplerData,
       run cross_product.get_samples
           (set_data (set_samples (base_sampler.__init__ d) samples) d')
       = (Ok samples, set_data (set_samples (base_sampler.__init__ d) samples) d').
Proof.
  intros d samples.
  apply (cross_product_memoized d (base_sampler.__init__ d)); [|reflexivity].
  split; unfold dict_wf; simpl; refine (bool_decide_unpack _ _); vm_compute; exact I.
Defined.

Lemma prod_zero (l : list nat) : 0 ∈ l -> prod l = 0.
Proof.
  induction l as [|x l IH]; intros Hin; [by apply elem_of_nil in Hin|].
  rewrite prod_cons. apply elem_of_cons in Hin as [<-|Hin]; [done|].
  rewrite IH by done. lia.
Qed.

(** X5. A parameter whose value sequence is empty leaves nothing to
    enumerate: whatever the rest of the configuration, [get_samples()] on
    an object without cache returns the empty list. *)
Theorem cross_product_empty_sequence (self : Sampler)
    (p : list (string * ParamSpec)) (k : string) (v : ParamSpec) :
  _samples self = None ->
  parameters (data self) = Some p ->
  (k, v) ∈ p ->
  py_iter v = [] ->
  (run cross_product.get_samples self).1 = Ok [].
Proof.
  intros Hs Hp Hin Hv.
  destruct (get_samples_total self) as (samples & self' & Hrun & _ & _ & Hlen).
  rewrite Hrun. simpl. f_equal. apply nil_length_inv. rewrite Hlen by done.
  apply prod_zero. apply list_elem_of_fmap. exists []. split; [done|].
  unfold cross_product.axes. rewrite Hp. apply elem_of_app. right.
  apply list_elem_of_fmap. exists (k, v). simpl. by rewrite Hv.
Qed.

Lemma cross_product_empty_sequence_witness :
  (run cross_product.get_samples
     (base_sampler.__init__
        {| type_ := Some (Scalar (PyStr "cross_product"));
           constants := Some [("X1", PyInt 20)];
           parameters := Some [("X2", Values [PyInt 5; PyInt 10]); ("X3", Values [])];
           num_samples := None;
           previous_samples := None |})).1 = Ok [].
Proof.
  apply (cross_product_empty_sequence _
           [("X2", Values [PyInt 5; PyInt 10]); ("X3", Values [])] "X3" (Values []));
    try reflexivity.
  apply list_elem_of_In. right. left. reflexivity.
Defined.

Lemma filter_elem_of_nil (l : list string) :
  filter (fun k => k ∈ @nil string) l = [].
Proof.
  induction l as [|x l IH]; [done|].
  rewrite filter_cons_False; [done|]. apply not_elem_of_nil.
Qed.

(** X6. A configuration with constants and no [parameters] block is
    accepted, and [get_samples()] returns exactly one sample: the
    constants. *)
Theorem cross_product_constants_only (d : SamplerData) (c : list (string * PyVal)) :
  constants d = Some c ->
  parameters d = None ->
  dict_wf c ->
  cross_product.__init__ d = Ok (base_sampler.__init__ d)
  /\ (run cross_product.get_samples (base_sampler.__init__ d)).1 = Ok [c].
Proof.
  intros Hc Hp Hwf.
  assert (cross_product.__init__ d = Ok (base_sampler.__init__ d)) as Hinit.
  { unfold cross_product.__init__, cross_product.check_validity,
      _check_variables_existence, _check_variables_for_dups, parameters_keys.
    simpl. rewrite Hc, Hp. simpl. by rewrite filter_elem_of_nil. }
  split; [done|].
  assert (data_wf d) as Hdwf.
  { split; rewrite ?Hc, ?Hp; [done | apply NoDup_nil_2]. }
  rewrite (samples_explicit d _ Hdwf Hinit).
  unfold statements.parameter_axes, statements.sample_of, parameters_keys.
  rewrite Hc, Hp. simpl. by rewrite app_nil_r.
Qed.

Lemma cross_product_constants_only_witness :
  let d := {| type_ := Some (Scalar (PyStr "cross_product"));
              constants := Some [("X1", PyInt 20); ("X4", PyStr "a")];
              parameters := None; num_samples := None; previous_samples := None |} in
  cross_product.__init__ d = Ok (base_sampler.__init__ d)
  /\ (run cross_product.get_samples (base_sampler.__init__ d)).1
     = Ok [[("X1", PyInt 20); ("X4", PyStr "a")]].
Proof.
  intros d.
  apply (cross_product_constants_only d [("X1", PyInt 20); ("X4", PyStr "a")]);
    try reflexivity.
  unfold dict_wf. simpl. refine (bool_decide_unpack _ _). vm_compute. exact I.
Defined.

(** X7. For a well-formed configuration that the cross-product sampler
    accepts, looking a name up in any returned sample gives, for a
    constant, its configured value, and for a parameter, one of the values
    of its sequence. *)
Theorem cross_product_sample_values (d : SamplerData) (self : Sampler) :
  data_wf d ->
  cross_product.__init__ d = Ok self ->
  exists samples,
    (run cross_product.get_samples self).1 = Ok samples
    /\ forall s, s ∈ samples ->
         (forall k v, (k, v) ∈ default [] (constants d) -> dict_get s k = Some v)
         /\ (forall k spec, (k, spec) ∈ default [] (parameters d) ->
               exists v, v ∈ py_iter spec /\ dict_get s k = Some v).
Proof.
  intros Hwf Hinit. eexists. split; [by apply samples_explicit|].
  intros s (choice & -> & Hchoice)%list_elem_of_fmap.
  apply elem_of_lexicographic_product in Hchoice.
  destruct Hwf as [Hwfc Hwfp]. unfold statements.sample_of. split.
  - intros k v Hin. apply dict_get_app_l. by apply dict_get_elem_of.
  - intros k spec Hin.
    apply init_ok_inv in Hinit as [_ Hv]. unfold cross_product.check_validity in Hv.
    apply result_bind_ok in Hv as ([] & _ & Hdups).
    assert (k ∈ parameters_keys d) as Hk.
    { unfold parameters_keys, keys. destruct (parameters d) as [p|]; simpl in *;
        [|by apply elem_of_nil in Hin].
      apply list_elem_of_fmap. by exists (k, spec). }
    assert (k ∉ keys (default [] (constants d))) as Hkc.
    { intros Hc. apply (check_dups_disjoint _ k Hdups); [|done].
      unfold constants_keys. simpl. by destruct (constants d). }
    rewrite dict_get_app_r by done.
    apply list_elem_of_lookup_1 in Hin as [i Hi].
    assert (statements.parameter_axes d !! i = Some (py_iter spec)) as Haxis.
    { unfold statements.parameter_axes. by rewrite list_lookup_fmap, Hi. }
    destruct (Forall2_lookup_r _ _ _ _ _ Hchoice Haxis) as (v & Hv & Hmem).
    exists v. split; [done|].
    apply Forall2_length in Hchoice. rewrite parameter_axes_length in Hchoice.
    apply dict_get_elem_of.
    + unfold dict_wf, keys. rewrite fst_zip by lia.
      unfold parameters_keys, keys. by destruct (parameters d).
    + apply (list_elem_of_lookup_2 _ i). apply lookup_zip_with_Some.
      exists k, v. split; [done|]. split; [|done].
      unfold parameters_keys, keys. destruct (parameters d) as [p|]; simpl in *;
        [|done]. by rewrite list_lookup_fmap, Hi.
Qed.

Lemma cross_product_sample_values_witness :
  data_wf examples.cross_product_data
  /\ cross_product.__init__ examples.cross_product_data
     = Ok (base_sampler.__init__ examples.cross_product_data)
  /\ exists samples,
    (run cross_product.get_samples
       (base_sampler.__init__ examples.cross_product_data)).1 = Ok samples
    /\ forall s, s ∈ samples ->
         (forall k v, (k, v) ∈ default [] (constants examples.cross_product_data) ->
            dict_get s k = Some v)
         /\ (forall k spec,
               (k, spec) ∈ default [] (parameters examples.cross_product_data) ->
               exists v, v ∈ py_iter spec /\ dict_get s k = Some v).
Proof.
  assert (data_wf examples.cross_product_data) as Hwf.
  { split; unfold dict_wf; simpl; refine (bool_decide_unpack _ _); vm_compute; exact I. }
  split; [exact Hwf|]. split; [reflexivity|].
  apply (cross_product_sample_values examples.cross_product_data _ Hwf). reflexivity.
Defined.

(** ** The range sampler, continued *)

Lemma check_bound_ok_iff str_to_float (value : ParamSpec) (bound : string)
    (msg : Message) :
  uqpipeline_sample.check_bound str_to_float value bound msg = Ok tt
  <-> exists v, subscript value bound = Ok v /\ statements.converts str_to_float v.
Proof.
  unfold uqpipeline_sample.check_bound, statements.converts. split.
  - destruct (subscript value bound) as [v|e] eqn:Hv; simpl.
    + destruct (uqpipeline_sample.py_float _ v) as [f|e] eqn:Hf.
      * intros _. eauto.
      * destruct e; discriminate.
    + destruct e; discriminate.
  - intros (v & -> & f & Hf). simpl. by rewrite Hf.
Qed.

Lemma check_bound_raise str_to_float (value : ParamSpec) (bound : string)
    (msg : Message) (e : Exception) :
  subscript value bound = Raise e -> e <> ValueError ->
  uqpipeline_sample.check_bound str_to_float value bound msg = Raise e.
Proof.
  intros Hs Hne. unfold uqpipeline_sample.check_bound. rewrite Hs. simpl.
  by destruct e.
Qed.

Lemma subscript_range (entry : list (string * PyVal)) (k : string) (v : PyVal) :
  subscript (Range entry) k = Ok v <-> dict_get entry k = Some v.
Proof.
  unfold subscript, getitem. destruct (dict_get entry k); split; intros; by simplify_eq.
Qed.

Lemma accepted_entry_iff str_to_float (key : string) (value : ParamSpec) :
  statements.accepted_entry str_to_float value
  <-> uqpipeline_sample.check_bound str_to_float value "min"
        (NumericMinimum key value) = Ok tt
      /\ uqpipeline_sample.check_bound str_to_float value "max"
           (NumericMaximum key value) = Ok tt.
Proof.
  rewrite !check_bound_ok_iff. unfold statements.accepted_entry. split.
  - intros (entry & lo & hi & -> & Hlo & Hclo & Hhi & Hchi).
    split; eexists; (split; [by apply subscript_range | done]).
  - intros [(lo & Hlo & Hclo) (hi & Hhi & Hchi)].
    destruct value as [l|entry]; [discriminate|].
    exists entry, lo, hi. by rewrite <- !subscript_range.
Qed.

Lemma check_loop_ok_iff str_to_float (items : list (string * ParamSpec)) :
  uqpipeline_sample.check_loop str_to_float items = Ok tt
  <-> Forall (fun kv => statements.accepted_entry str_to_float kv.2) items.
Proof.
  induction items as [|[key value] items IH]; simpl.
  - split; [constructor | done].
  - rewrite Forall_cons, <- IH, (accepted_entry_iff _ key). simpl.
    destruct (uqpipeline_sample.check_bound _ value "min" _) as [[]|e]; simpl;
      [|split; [done | by intros [[? _] _]]].
    destruct (uqpipeline_sample.check_bound _ value "max" _) as [[]|e]; simpl;
      [|split; [done | by intros [[_ ?] _]]].
    tauto.
Qed.

(** X8. Construction of the range sampler succeeds exactly when the
    inherited check, whatever it is, and the inherited variable checks
    pass, the configuration asks for no [previous_samples], has a
    [parameters] block, and every entry of it is a mapping whose [min] and
    [max] are present and convert to a float; the object built holds the
    configuration and no cache. *)
Theorem range_init_succeeds_iff str_to_float (inherited : Sampler -> result unit)
    (d : SamplerData) (self : Sampler) :
  uqpipeline_sample.__init__ str_to_float inherited d = Ok self
  <-> self = base_sampler.__init__ d
      /\ inherited (base_sampler.__init__ d) = Ok tt
      /\ _check_variables (base_sampler.__init__ d) = Ok tt
      /\ previous_samples d = None
      /\ exists items,
           parameters d = Some items
           /\ Forall (fun kv => statements.accepted_entry str_to_float kv.2) items.
Proof.
  unfold uqpipeline_sample.__init__, uqpipeline_sample.check_validity,
    uqpipeline_sample.data_parameters.
  destruct (inherited (base_sampler.__init__ d)) as [[]|e]; simpl;
    [|split; [done | by intros (_ & ? & _)]].
  destruct (_check_variables (base_sampler.__init__ d)) as [[]|e]; simpl;
    [|split; [done | by intros (_ & _ & ? & _)]].
  destruct (previous_samples d) as [p|]; simpl;
    [split; [done | by intros (_ & _ & _ & ? & _)]|].
  destruct (parameters d) as [items|]; simpl;
    [|split; [done | by intros (_ & _ & _ & _ & ? & ? & _)]].
  pose proof (check_loop_ok_iff str_to_float items) as Hloop.
  destruct (uqpipeline_sample.check_loop str_to_float items) as [[]|e]; simpl.
  - split.
    + intros [= <-]. split_and!; try done. exists items. split; [done|]. by apply Hloop.
    + by intros (-> & _).
  - split; [done|]. intros (_ & _ & _ & _ & items' & [= <-] & Hall).
    by apply Hloop in Hall.
Qed.

(** X9. On a configuration that passes the inherited checks, whatever
    [BaseSampler.check_validity] checks, and asks for no previous samples, whose entries before [key] are accepted, the
    entry of [key] makes construction fail with an exception that is not a
    [SamplingError]: [TypeError] when it is a list of values, [KeyError]
    when it is a mapping without [min], or with a [min] that converts but
    without [max]. *)
Theorem range_init_malformed_entry str_to_float
    (inherited : Sampler -> result unit) (d : SamplerData)
    (before after : list (string * ParamSpec)) (key : string) (value : ParamSpec) :
  inherited (base_sampler.__init__ d) = Ok tt ->
  _check_variables (base_sampler.__init__ d) = Ok tt ->
  previous_samples d = None ->
  parameters d = Some (before ++ (key, value) :: after) ->
  Forall (fun kv => statements.accepted_entry str_to_float kv.2) before ->
  ((exists l, value = Values l) ->
   uqpipeline_sample.__init__ str_to_float inherited d = Raise TypeError)
  /\ (forall entry, value = Range entry -> dict_get entry "min" = None ->
      uqpipeline_sample.__init__ str_to_float inherited d = Raise (KeyError "min"))
  /\ (forall entry lo, value = Range entry ->
      dict_get entry "min" = Some lo -> statements.converts str_to_float lo ->
      dict_get entry "max" = None ->
      uqpipeline_sample.__init__ str_to_float inherited d = Raise (KeyError "max")).
Proof.
  intros Hinh Hvars Hprev Hparams Hbefore. apply check_loop_ok_iff in Hbefore.
  assert (uqpipeline_sample.__init__ str_to_float inherited d =
          (uqpipeline_sample.check_loop str_to_float ((key, value) :: after)
           ≫= fun _ => Ok (base_sampler.__init__ d))) as ->.
  { unfold uqpipeline_sample.__init__, uqpipeline_sample.check_validity.
    rewrite Hinh. simpl. rewrite Hvars. simpl. rewrite Hprev. simpl.
    unfold uqpipeline_sample.data_parameters. rewrite Hparams. simpl.
    by rewrite check_loop_app. }
  split_and!.
  - intros [l ->]. reflexivity.
  - intros entry -> Hmin. cbn [uqpipeline_sample.check_loop].
    rewrite (check_bound_raise _ _ "min" _ (KeyError "min")); [done| |done].
    unfold subscript, getitem. by rewrite Hmin.
  - intros entry lo -> Hmin Hlo Hmax. cbn [uqpipeline_sample.check_loop].
    assert (uqpipeline_sample.check_bound str_to_float (Range entry) "min"
              (NumericMinimum key (Range entry)) = Ok tt) as ->.
    { apply check_bound_ok_iff. exists lo. by rewrite subscript_range. }
    rewrite (check_bound_raise _ _ "max" _ (KeyError "max")); [done| |done].
    unfold subscript, getitem. by rewrite Hmax.
Qed.

Lemma range_init_malformed_entry_witness :
  uqpipeline_sample.__init__ (fun _ => None) (fun _ => Ok tt)
    {| type_ := Some (Scalar (PyStr "random")); constants := Some [("X1", PyInt 20)];
       parameters := Some [("X2", Range [("min", PyInt 5); ("max", PyInt 10)]);
                           ("X3", Values [PyInt 5; PyInt 10])];
       num_samples := Some (PyInt 5); previous_samples := None |}
  = Raise TypeError.
Proof.
  apply (range_init_malformed_entry (fun _ => None) (fun _ => Ok tt) _
           [("X2", Range [("min", PyInt 5); ("max", PyInt 10)])] []
           "X3" (Values [PyInt 5; PyInt 10])); try reflexivity.
  - repeat constructor. exists [("min", PyInt 5); ("max", PyInt 10)], (PyInt 5), (PyInt 10).
    split_and!; try reflexivity; eexists; reflexivity.
  - by eexists.
Defined.

Lemma run_bind_inv {S A B} (m : M S A) (k : A -> M S B) (s s' : S) (r : result B) :
  run (m ≫= k) s = (r, s') ->
  (exists a s1, run m s = (Ok a, s1) /\ run (k a) s1 = (r, s'))
  \/ (exists e, run m s = (Raise e, s') /\ r = Raise e).
Proof.
  rewrite run_bind. destruct (run m s) as [[a|e] s1]; intros H.
  - left. eauto.
  - right. exists e. by simplify_eq.
Qed.

Lemma set_samples_same (s : Sampler) (acc : list (list (string * PyVal))) :
  _samples s = Some acc -> set_samples s acc = s.
Proof. destruct s as [d c]. simpl. by intros ->. Qed.

Lemma seq_lookup_Forall2 {A} (l : list A) :
  Forall2 (fun i x => l !! i = Some x) (seq 0 (length l)) l.
Proof.
  apply Forall2_same_length_lookup_2; [by rewrite length_seq|].
  intros i j x Hj Hx. apply lookup_seq in Hj as [-> _]. done.
Qed.

Section range_loops.

Variable W : Type.
Variable random_random : W -> PrimFloat.float * W.

(** The loop of lines 171-181 puts, for each index, the constants updated
    with the drawn values at the end of the cache. *)
Lemma merge_loop_spec (indices : list nat)
    (random_list rds acc : list (list (string * PyVal))) (s : Sampler) (w : W) :
  Forall2 (fun i rd => random_list !! i = Some rd) indices rds ->
  _samples s = Some acc ->
  let merged :=
    (fun rd => dict_update
                 match constants (data s) with
                 | Some c => dict_update [] c
                 | None => []
                 end rd) <$> rds in
  run (uqpipeline_sample.merge_loop W indices random_list acc) (s, w)
  = (Ok (acc ++ merged), (set_samples s (acc ++ merged), w)).
Proof.
  intros Hall. revert acc s. induction Hall as [|i rd idxs rds Hi _ IH]; intros acc s Hs.
  - simpl. by rewrite app_nil_r, set_samples_same.
  - simpl. unfold tuple_getitem. rewrite Hi. simpl.
    rewrite (IH (acc ++ [_]) (set_samples s (acc ++ [_]))) by done.
    simpl. by rewrite <- !app_assoc.
Qed.

Lemma draw_sample_world (items : list (string * ParamSpec))
    (min_dict range_dict acc : list (string * PyVal)) (s : Sampler) (w : W) :
  Forall (fun kv => exists lo width,
            dict_get min_dict kv.1 = Some lo
            /\ dict_get range_dict kv.1 = Some width
            /\ forall r, exists v, py_mul (PyFloat r) width ≫= py_add lo = Ok v)
    items ->
  exists random_dictionary,
    run (uqpipeline_sample.draw_sample W random_random items min_dict range_dict acc)
        (s, w)
    = (Ok random_dictionary,
       (s, statements.after_draws random_random (length items) w)).
Proof.
  intros Hall. revert acc w.
  induction Hall as [|[key value] items (lo & width & Hlo & Hw & Hdraw) _ IH];
    intros acc w.
  - by exists acc.
  - simpl in *. unfold getitem. rewrite Hlo, Hw. simpl.
    destruct (Hdraw (random_random w).1) as [v Hv].
    destruct (py_mul _ width) as [scaled|e]; [|done]. simpl in Hv. rewrite Hv.
    simpl. apply IH.
Qed.

Lemma after_draws_add (a b : nat) (w : W) :
  statements.after_draws random_random (a + b) w
  = statements.after_draws random_random b (statements.after_draws random_random a w).
Proof. revert w. induction a as [|a IH]; intros w; simpl; [done | apply IH]. Qed.

Lemma draws_loop_world (indices : list nat) (items : list (string * ParamSpec))
    (min_dict range_dict : list (string * PyVal))
    (acc : list (list (string * PyVal))) (s : Sampler) (w : W) :
  Forall (fun kv => exists lo width,
            dict_get min_dict kv.1 = Some lo
            /\ dict_get range_dict kv.1 = Some width
            /\ forall r, exists v, py_mul (PyFloat r) width ≫= py_add lo = Ok v)
    items ->
  exists random_list,
    run (uqpipeline_sample.draws_loop W random_random indices items
           min_dict range_dict acc) (s, w)
    = (Ok random_list,
       (s, statements.after_draws random_random (length indices * length items) w)).
Proof.
  intros Hall. revert acc w. induction indices as [|i rest IH]; intros acc w.
  - by exists acc.
  - simpl.
    destruct (draw_sample_world items min_dict range_dict [] s w Hall) as [rd ->].
    rewrite after_draws_add. apply IH.
Qed.

End range_loops.

Lemma point_sample_zip (items : list (string * ParamSpec))
    (points : list (list PyVal)) (point : list PyVal) (i j : nat)
    (acc : list (string * PyVal)) :
  points !! i = Some point ->
  NoDup (keys acc ++ keys items) ->
  j + length items <= length point ->
  uqpipeline_sample.point_sample items points i j acc
  = Ok (acc ++ zip (keys items) (drop j point)).
Proof.
  intros Hpt. revert j acc. induction items as [|[key value] items IH];
    intros j acc Hnd Hlen.
  - simpl. by rewrite app_nil_r.
  - simpl in *. unfold tuple_getitem. rewrite Hpt. simpl.
    destruct (lookup_lt_is_Some_2 point j) as [v Hv]; [lia|]. rewrite Hv. simpl.
    assert (key ∉ keys acc) as Hk.
    { apply NoDup_app in Hnd as (_ & Hdisj & _). intros Hin.
      apply (Hdisj key Hin). left. }
    rewrite dict_set_new by done. rewrite IH.
    + rewrite (drop_S _ _ _ Hv). simpl. by rewrite <- app_assoc.
    + unfold keys in *. rewrite fmap_app, <- app_assoc. done.
    + lia.
Qed.

Lemma points_loop_zip (indices : list nat) (items : list (string * ParamSpec))
    (points pts : list (list PyVal)) (acc : list (list (string * PyVal))) :
  dict_wf items ->
  Forall2 (fun i pt => points !! i = Some pt /\ length items <= length pt) indices pts ->
  uqpipeline_sample.points_loop indices items points acc
  = Ok (acc ++ (zip (keys items) <$> pts)).
Proof.
  intros Hwf Hall. revert acc. induction Hall as [|i pt idxs pts [Hi Hlen] _ IH];
    intros acc.
  - simpl. by rewrite app_nil_r.
  - simpl. rewrite (point_sample_zip items points pt i 0 []); [|done|done|lia].
    simpl. rewrite IH. by rewrite <- app_assoc.
Qed.

(** What [bind_inv] does for a run that may have raised: either [m] gave
    [a] and the rest ran from [s], or [m] raised. *)
Tactic Notation "bind_cases" hyp(H) "as" ident(a) ident(s) ident(H1) :=
  let e := fresh "e" in
  apply run_bind_inv in H as [(a & s & H1 & H) | (e & H1 & _)];
  try (rewrite run_lift in H1; injection H1 as H1 <-).

(** The same for a run of any outcome [r]: in the second case [r] is the
    exception of [m]. *)
Tactic Notation "bind_split" hyp(H) "as" ident(a) ident(s) ident(H1) :=
  let e := fresh "e" in
  let Hr := fresh "Hr" in
  apply run_bind_inv in H as [(a & s & H1 & H) | (e & H1 & Hr)];
  try (rewrite run_lift in H1; injection H1 as H1 <-).

Lemma range_failure_cache W random_random sampler (d : SamplerData) (w : W)
    (e : Exception) (st' : Sampler * W) :
  run (uqpipeline_sample.get_samples W random_random sampler)
      (base_sampler.__init__ d, w) = (Raise e, st') ->
  _samples st'.1 = Some [].
Proof.
  unfold uqpipeline_sample.get_samples. intros H.
  bind_cases H as self s0 Hself; [|discriminate]. injection Hself as <- <-.
  simpl _samples in H. cbv iota in H.
  bind_cases H as u s1 Hput; [|discriminate]. injection Hput as _ <-.
  bind_cases H as items s2 Hitems; [|done].
  bind_cases H as bounds s3 Hbounds; [|done].
  destruct bounds as [[min_dict range_dict] box].
  bind_cases H as n s4 Hn; [|done].
  bind_cases H as indices s5 Hidx; [|done].
  pose proof (draws_loop_self W random_random indices items min_dict range_dict []
                (set_samples (base_sampler.__init__ d) [], w)) as Hself.
  bind_cases H as random_list s6 Hdraws;
    [|by rewrite Hdraws in Hself; simpl in Hself; rewrite Hself].
  rewrite Hdraws in Hself. simpl in Hself.
  bind_cases H as backend s7 Hbackend; [|by rewrite Hself].
  bind_cases H as num_points s8 Hnum; [|by rewrite Hself].
  unfold uqpipeline_sample.call_backend in H.
  bind_cases H as points s9 Hpoints;
    [|simpl in Hpoints; injection Hpoints as _ <-; simpl; by rewrite Hself].
  simpl in Hpoints. injection Hpoints as _ <-.
  bind_cases H as n' s10 Hn'; [|simpl; by rewrite Hself].
  bind_cases H as indices' s11 Hidx'; [|simpl; by rewrite Hself].
  bind_cases H as random_list' s12 Hloop; [|simpl; by rewrite Hself].
  rewrite (merge_loop_spec W _ random_list' random_list' [] s6.1) in H.
  - discriminate.
  - apply seq_lookup_Forall2.
  - by rewrite Hself.
Qed.

(** X10. When [get_samples()] on a new range sampler raises, wherever it
    does, the cache is left holding the empty list that was stored before
    the computation began; every later call then returns the empty list
    instead of computing or raising again. *)
Theorem range_failure_leaves_empty_cache W random_random sampler
    (d : SamplerData) (w : W) (e : Exception) (st' : Sampler * W) :
  run (uqpipeline_sample.get_samples W random_random sampler)
      (base_sampler.__init__ d, w) = (Raise e, st') ->
  _samples st'.1 = Some []
  /\ forall random_random' sampler' (w' : W),
       (run (uqpipeline_sample.get_samples W random_random' sampler') (st'.1, w')).1
       = Ok [].
Proof.
  intros Hrun. apply range_failure_cache in Hrun. split; [done|].
  intros rr' sampler' w'. unfold uqpipeline_sample.get_samples.
  rewrite run_bind. simpl. by rewrite Hrun.
Qed.

Lemma range_failure_leaves_empty_cache_witness :
  let d := examples.range_data None (PyInt 5) in
  let first :=
    run (uqpipeline_sample.get_samples unit (fun w => (PrimFloat.zero, w)) None)
        (base_sampler.__init__ d, tt) in
  first.1 = Raise (KeyError "num_samples")
  /\ _samples first.2.1 = Some []
  /\ forall random_random' sampler' (w' : unit),
       (run (uqpipeline_sample.get_samples unit random_random' sampler')
            (first.2.1, w')).1 = Ok [].
Proof.
  intros d first. split; [reflexivity|].
  apply (range_failure_leaves_empty_cache unit (fun w => (PrimFloat.zero, w)) None
           d tt (KeyError "num_samples") first.2).
  reflexivity.
Defined.

Lemma dict_get_set_eq {V} (k : string) (v : V) (d : list (string * V)) :
  dict_get (dict_set k v d) k = Some v.
Proof.
  induction d as [|[k' v'] d IH]; simpl.
  - by rewrite decide_True.
  - destruct (decide (k = k')) as [->|Hne]; simpl.
    + by rewrite decide_True.
    + by rewrite decide_False.
Qed.

Lemma dict_get_set_ne {V} (k k' : string) (v : V) (d : list (string * V)) :
  k <> k' -> dict_get (dict_set k v d) k' = dict_get d k'.
Proof.
  intros Hne. induction d as [|[k0 v0] d IH]; simpl.
  - by rewrite decide_False.
  - destruct (decide (k = k0)) as [->|Hne0]; simpl.
    + by rewrite !decide_False.
    + destruct (decide (k' = k0)); [done | apply IH].
Qed.

Lemma py_sub_nonnumeric (hi lo : PyVal) :
  as_number lo = None \/ as_number hi = None -> py_sub hi lo = Raise TypeError.
Proof.
  unfold py_sub. intros [H|H]; rewrite H; [by destruct (as_number hi) | done].
Qed.

(** The loop of lines 141-144 on entries from which one can draw: the box
    lists their bounds in order, and the two dictionaries hold the minimum
    and the width of each. *)
Lemma bounds_loop_spec (items : list (string * ParamSpec))
    (bounds : list (PyVal * PyVal)) (min0 range0 : list (string * PyVal))
    (box0 : list (list PyVal)) :
  Forall2 (fun kv b => statements.drawable kv.2 b.1 b.2) items bounds ->
  dict_wf items ->
  exists min_dict range_dict,
    uqpipeline_sample.bounds_loop items min0 range0 box0
    = Ok (min_dict, range_dict, box0 ++ ((fun b => [b.1; b.2]) <$> bounds))
    /\ (forall k, k ∉ keys items ->
          dict_get min_dict k = dict_get min0 k
          /\ dict_get range_dict k = dict_get range0 k)
    /\ Forall (fun kv => exists lo width,
                 dict_get min_dict kv.1 = Some lo
                 /\ dict_get range_dict kv.1 = Some width
                 /\ forall r, exists v, py_mul (PyFloat r) width ≫= py_add lo = Ok v)
         items.
Proof.
  unfold dict_wf, keys. intros Hall. revert min0 range0 box0.
  induction Hall as [|[key value] [lo hi] items bounds Hd _ IH];
    intros min0 range0 box0 Hnd.
  - exists min0, range0. simpl. rewrite app_nil_r. split_and!; [done|done|constructor].
  - simpl in *. apply NoDup_cons in Hnd as [Hkey Hnd].
    destruct Hd as (Hlo & Hhi & width & Hwidth & Hdraw).
    rewrite Hlo, Hhi. simpl. rewrite Hwidth. simpl.
    destruct (IH (dict_set key lo min0) (dict_set key width range0)
                (box0 ++ [[lo; hi]]) Hnd) as (md & rd & -> & Hother & Hitems).
    exists md, rd. split_and!.
    + by rewrite <- app_assoc.
    + intros k [Hne Hk]%not_elem_of_cons. destruct (Hother k Hk) as [-> ->].
      by rewrite !dict_get_set_ne.
    + constructor; [|done]. simpl. destruct (Hother key Hkey) as [-> ->].
      exists lo, width. by rewrite !dict_get_set_eq.
Qed.

Lemma bounds_loop_app (before rest : list (string * ParamSpec))
    (min0 range0 : list (string * PyVal)) (box0 : list (list PyVal)) :
  Forall (fun kv => exists lo hi width,
            subscript kv.2 "min" = Ok lo /\ subscript kv.2 "max" = Ok hi
            /\ py_sub hi lo = Ok width) before ->
  exists min1 range1 box1,
    uqpipeline_sample.bounds_loop (before ++ rest) min0 range0 box0
    = uqpipeline_sample.bounds_loop rest min1 range1 box1.
Proof.
  intros Hall. revert min0 range0 box0.
  induction Hall as [|[key value] before (lo & hi & width & Hlo & Hhi & Hw) _ IH];
    intros min0 range0 box0.
  - by exists min0, range0, box0.
  - simpl in *. rewrite Hlo, Hhi. simpl. rewrite Hw. simpl. apply IH.
Qed.

(** X11. A bound that is not a number (a string, even one that validation
    accepted because it parses, or [None]) makes [get_samples()] on a new
    range sampler raise [TypeError] at [value["max"] - value["min"]],
    whatever the backend; the entries before it only need to have a
    width. *)
Theorem range_get_samples_nonnumeric_bound W random_random sampler
    (d : SamplerData) (w : W) (before after : list (string * ParamSpec))
    (key : string) (value : ParamSpec) (lo hi : PyVal) :
  parameters d = Some (before ++ (key, value) :: after) ->
  Forall (fun kv => exists lo hi width,
            subscript kv.2 "min" = Ok lo /\ subscript kv.2 "max" = Ok hi
            /\ py_sub hi lo = Ok width) before ->
  subscript value "min" = Ok lo ->
  subscript value "max" = Ok hi ->
  as_number lo = None \/ as_number hi = None ->
  (run (uqpipeline_sample.get_samples W random_random sampler)
       (base_sampler.__init__ d, w)).1 = Raise TypeError.
Proof.
  intros Hparams Hbefore Hlo Hhi Hnum.
  destruct (run _ _) as [r st] eqn:H. simpl.
  unfold uqpipeline_sample.get_samples in H.
  bind_split H as self s0 Hself; [|discriminate]. injection Hself as <- <-.
  simpl _samples in H. cbv iota in H.
  bind_split H as u s1 Hput; [|discriminate]. injection Hput as _ <-.
  unfold uqpipeline_sample.data_parameters in H. simpl (parameters _) in H.
  rewrite Hparams in H.
  bind_split H as items s2 Hitems; [|discriminate]. subst items.
  destruct (bounds_loop_app before ((key, value) :: after) [] [] [] Hbefore)
    as (min1 & range1 & box1 & Hloop).
  rewrite Hloop in H. simpl in H. rewrite Hlo, Hhi in H. simpl in H.
  rewrite py_sub_nonnumeric in H by done. simpl in H. by simplify_eq.
Qed.

Lemma range_get_samples_nonnumeric_bound_witness :
  let d := examples.range_data (Some (PyInt 3)) (PyStr "5") in
  uqpipeline_sample.__init__ (fun _ => Some PrimFloat.one) (fun _ => Ok tt) d
  = Ok (base_sampler.__init__ d)
  /\ (run (uqpipeline_sample.get_samples unit (fun w => (PrimFloat.zero, w)) None)
          (base_sampler.__init__ d, tt)).1 = Raise TypeError.
Proof.
  intros d. split; [reflexivity|].
  apply (range_get_samples_nonnumeric_bound unit _ None d tt [] [] "X2"
           (Range [("min", PyStr "5"); ("max", PyInt 10)]) (PyStr "5") (PyInt 10));
    try reflexivity; [constructor | by left].
Defined.

Lemma take_lookup_Forall2 {A} (P : A -> Prop) (l : list A) (n : nat) :
  n <= length l ->
  Forall P (take n l) ->
  Forall2 (fun i x => l !! i = Some x /\ P x) (seq 0 n) (take n l).
Proof.
  intros Hn HP.
  apply Forall2_same_length_lookup_2; [by rewrite length_seq, length_take_le|].
  intros i j x Hj Hx. apply lookup_seq in Hj as [-> Hi]. simpl.
  split.
  - by rewrite lookup_take_lt in Hx.
  - rewrite Forall_forall in HP. apply HP. by eapply list_elem_of_lookup_2.
Qed.

Lemma merged_sample_of (d : SamplerData) (items : list (string * ParamSpec))
    (pt : list PyVal) :
  data_wf d ->
  _check_variables_for_dups (base_sampler.__init__ d) = Ok tt ->
  parameters d = Some items ->
  length items <= length pt ->
  dict_update
    match constants d with
    | Some c => dict_update [] c
    | None => []
    end (zip (keys items) pt)
  = statements.sample_of d pt.
Proof.
  intros [Hwfc Hwfp] Hdups Hparams Hlen.
  assert (parameters_keys d = keys items) as Hpk
    by (unfold parameters_keys; by rewrite Hparams).
  assert (keys (zip (keys items) pt) = keys items) as Hzk.
  { unfold keys. rewrite fst_zip; [done|]. by rewrite length_fmap. }
  assert (NoDup (keys (default [] (constants d)) ++ keys items)) as Hnd.
  { apply NoDup_app. split_and!; [done | | by rewrite Hparams in Hwfp].
    intros k Hk. rewrite <- Hpk. apply (check_dups_disjoint _ k Hdups).
    unfold constants_keys. simpl. by destruct (constants d). }
  unfold statements.sample_of. rewrite Hpk.
  destruct (constants d) as [c|]; simpl in *.
  - rewrite (dict_update_new [] c) by done. simpl.
    apply dict_update_new. by rewrite Hzk.
  - apply dict_update_new. by rewrite Hzk.
Qed.

Lemma range_with_backend W random_random
    (backend : PyVal -> list (list PyVal) -> W -> result (list (list PyVal)) * W)
    (d : SamplerData) (items : list (string * ParamSpec))
    (bounds : list (PyVal * PyVal)) (nv : PyVal) (z : Z)
    (points : list (list PyVal)) (w w2 : W) :
  data_wf d ->
  _check_variables_for_dups (base_sampler.__init__ d) = Ok tt ->
  parameters d = Some items ->
  Forall2 (fun kv b => statements.drawable kv.2 b.1 b.2) items bounds ->
  num_samples d = Some nv ->
  as_number nv = Some (NInt z) ->
  backend nv ((fun b => [b.1; b.2]) <$> bounds)
    (statements.after_draws random_random (Z.to_nat z * length items) w)
  = (Ok points, w2) ->
  Z.to_nat z <= length points ->
  Forall (fun pt => length items <= length pt) (take (Z.to_nat z) points) ->
  run (uqpipeline_sample.get_samples W random_random (Some backend))
      (base_sampler.__init__ d, w)
  = (Ok (statements.sample_of d <$> take (Z.to_nat z) points),
     (set_samples (base_sampler.__init__ d)
        (statements.sample_of d <$> take (Z.to_nat z) points), w2)).
Proof.
  intros Hwf Hdups Hparams Hdraw Hnum Hint Hback Hn Hlen.
  destruct (run _ _) as [r st] eqn:H.
  unfold uqpipeline_sample.get_samples in H.
  bind_split H as self s0 Hself; [|discriminate]. injection Hself as <- <-.
  simpl _samples in H. cbv iota in H.
  bind_split H as u s1 Hput; [|discriminate]. injection Hput as _ <-.
  unfold uqpipeline_sample.data_parameters, uqpipeline_sample.data_num_samples in H.
  simpl (parameters _) in H. simpl (num_samples _) in H.
  rewrite Hparams, Hnum in H.
  bind_split H as items' s2 Hitems; [|discriminate]. subst items'.
  assert (dict_wf items) as Hwfi
    by (destruct Hwf as [_ Hp]; by rewrite Hparams in Hp).
  destruct (bounds_loop_spec items bounds [] [] [] Hdraw Hwfi) as
    (min_dict & range_dict & Hloop & _ & Hdicts).
  rewrite Hloop in H.
  bind_split H as b s3 Hb; [|discriminate]. subst b. cbv beta iota in H.
  bind_split H as n s4 Hn'; [|discriminate]. subst n.
  unfold py_range in H. rewrite Hint in H.
  bind_split H as indices s5 Hidx; [|discriminate]. subst indices.
  destruct (draws_loop_world W random_random (seq 0 (Z.to_nat z)) items
              min_dict range_dict [] (set_samples (base_sampler.__init__ d) []) w
              Hdicts) as [random_list Hdraws].
  rewrite length_seq in Hdraws.
  bind_split H as rl s6 Hrl; rewrite Hdraws in Hrl; [|discriminate].
  injection Hrl as _ <-.
  bind_split H as LatinHyperCubeSampler s7 Hs; [|discriminate].
  subst LatinHyperCubeSampler.
  bind_split H as num_points s8 Hnp; [|discriminate]. subst num_points.
  unfold uqpipeline_sample.call_backend in H.
  bind_split H as pts s9 Hpts; simpl in Hpts; rewrite Hback in Hpts;
    [|discriminate].
  injection Hpts as <- <-.
  bind_split H as n s10 Hn'; [|discriminate]. subst n. rewrite Hint in H.
  bind_split H as indices s11 Hidx; [|discriminate]. subst indices.
  rewrite (points_loop_zip _ items points (take (Z.to_nat z) points) [] Hwfi) in H
    by (by apply take_lookup_Forall2).
  bind_split H as rl' s12 Hrl'; [|discriminate]. subst rl'. simpl app in H.
  rewrite (merge_loop_spec W _ _ (zip (keys items) <$> take (Z.to_nat z) points) [])
    in H; [|apply seq_lookup_Forall2|done].
  simpl in H. rewrite <- list_fmap_compose in H.
  rewrite (list_fmap_ext _ (statements.sample_of d) (take (Z.to_nat z) points)) in H.
  - by simplify_eq.
  - intros i pt Hpt. simpl. apply merged_sample_of; try done.
    rewrite Forall_forall in Hlen. apply Hlen. by eapply list_elem_of_lookup_2.
Qed.

(** Bounds given as floats can always be drawn from. *)
Lemma drawable_floats (entry : list (string * PyVal)) (a b : PrimFloat.float) :
  dict_get entry "min" = Some (PyFloat a) ->
  dict_get entry "max" = Some (PyFloat b) ->
  statements.drawable (Range entry) (PyFloat a) (PyFloat b).
Proof.
  intros Ha Hb. unfold statements.drawable. rewrite !subscript_range.
  split_and!; [done..|]. eexists. split; [reflexivity|].
  intros r. eexists. reflexivity.
Qed.

(** X12. With a backend, on a well-formed configuration without a name in
    both blocks, whose entries can all be drawn from and whose
    [num_samples] is an integer [z]: [get_samples()] first makes
    [z * len(parameters)] calls of [random.random()], then calls the
    backend once with the raw [num_samples] and the box of the [[min,
    max]] pairs in declaration order; if the backend returns at least [z]
    points with a coordinate for each parameter, the result is one sample
    for each of the first [z] points, made of the constants followed by the
    parameters with the point's coordinates in order, and that list is
    cached (a count of zero or less gives the empty list). *)
Theorem range_get_samples_with_backend W random_random
    (backend : PyVal -> list (list PyVal) -> W -> result (list (list PyVal)) * W)
    (d : SamplerData) (items : list (string * ParamSpec))
    (bounds : list (PyVal * PyVal)) (nv : PyVal) (z : Z)
    (points : list (list PyVal)) (w w2 : W) :
  data_wf d ->
  _check_variables_for_dups (base_sampler.__init__ d) = Ok tt ->
  parameters d = Some items ->
  Forall2 (fun kv b => statements.drawable kv.2 b.1 b.2) items bounds ->
  num_samples d = Some nv ->
  as_number nv = Some (NInt z) ->
  backend nv ((fun b => [b.1; b.2]) <$> bounds)
    (statements.after_draws random_random (Z.to_nat z * length items) w)
  = (Ok points, w2) ->
  Z.to_nat z <= length points ->
  Forall (fun pt => length items <= length pt) (take (Z.to_nat z) points) ->
  run (uqpipeline_sample.get_samples W random_random (Some backend))
      (base_sampler.__init__ d, w)
  = (Ok (statements.sample_of d <$> take (Z.to_nat z) points),
     (set_samples (base_sampler.__init__ d)
        (statements.sample_of d <$> take (Z.to_nat z) points), w2)).
Proof. apply range_with_backend. Qed.

Lemma range_get_samples_with_backend_witness :
  let d := {| type_ := Some (Scalar (PyStr "random"));
              constants := Some [("X1", PyInt 20)];
              parameters := Some [("X2", Range [("min", PyInt 5); ("max", PyInt 10)]);
                                  ("X3", Range [("min", PyFloat PrimFloat.zero);
                                                ("max", PyFloat PrimFloat.one)])];
              num_samples := Some (PyInt 2);
              previous_samples := None |} in
  let backend := fun (n : PyVal) (box : list (list PyVal)) (w : nat) =>
    (Ok [[PyInt 6; PyFloat PrimFloat.one]; [PyInt 7; PyFloat PrimFloat.zero];
         [PyInt 8; PyFloat PrimFloat.one]], S w) in
  run (uqpipeline_sample.get_samples nat (fun w => (PrimFloat.zero, S w)) (Some backend))
      (base_sampler.__init__ d, 0)
  = (Ok [[("X1", PyInt 20); ("X2", PyInt 6); ("X3", PyFloat PrimFloat.one)];
         [("X1", PyInt 20); ("X2", PyInt 7); ("X3", PyFloat PrimFloat.zero)]],
     (set_samples (base_sampler.__init__ d)
        [[("X1", PyInt 20); ("X2", PyInt 6); ("X3", PyFloat PrimFloat.one)];
         [("X1", PyInt 20); ("X2", PyInt 7); ("X3", PyFloat PrimFloat.zero)]], 5)).
Proof.
  intros d backend.
  apply (range_get_samples_with_backend nat (fun w => (PrimFloat.zero, S w)) backend d
           [("X2", Range [("min", PyInt 5); ("max", PyInt 10)]);
            ("X3", Range [("min", PyFloat PrimFloat.zero); ("max", PyFloat PrimFloat.one)])]
           [(PyInt 5, PyInt 10); (PyFloat PrimFloat.zero, PyFloat PrimFloat.one)]
           (PyInt 2) 2
           [[PyInt 6; PyFloat PrimFloat.one]; [PyInt 7; PyFloat PrimFloat.zero];
            [PyInt 8; PyFloat PrimFloat.one]] 0 5); try reflexivity.
  - split; unfold dict_wf; simpl; refine (bool_decide_unpack _ _); vm_compute; exact I.
  - repeat constructor; simpl.
    + eexists. split; [reflexivity|]. intros r. eexists. reflexivity.
    + eexists. split; [reflexivity|]. intros r. eexists. reflexivity.
  - simpl. lia.
  - repeat constructor.
Defined.

(** ** The factory, continued *)

Section factory_outcome.

Variables BestCandidateSampler ColumnListSampler ListSampler
          CsvSampler RandomSampler CustomSampler : samplers.SamplerClass.

#[local] Abbreviation SAMPLE_FUNCTIONS_DICT :=
  (samplers.SAMPLE_FUNCTIONS_DICT BestCandidateSampler ColumnListSampler
     ListSampler CsvSampler RandomSampler CustomSampler).
#[local] Abbreviation new_sampler :=
  (samplers.new_sampler BestCandidateSampler ColumnListSampler
     ListSampler CsvSampler RandomSampler CustomSampler).

Lemma new_sampler_same_checks (d : SamplerData) (h : list Sampler)
    (t : string) (cls : samplers.SamplerClass) :
  type_ d = Some (Scalar (PyStr t)) ->
  SAMPLE_FUNCTIONS_DICT !! t = Some cls ->
  (forall self, samplers.cls_init_checks cls self = samplers.cls_check_validity cls self) ->
  run (new_sampler d) h =
  match samplers.cls_init_checks cls (base_sampler.__init__ d) with
  | Ok _ => (Ok (S (length h)), h ++ [base_sampler.__init__ d; base_sampler.__init__ d])
  | Raise e => (Raise e, h)
  end.
Proof.
  intros Ht Hcls Hsame.
  rewrite (new_sampler_registered _ _ _ _ _ _ d h t cls Ht Hcls).
  unfold is_valid. rewrite <- Hsame.
  by destruct (samplers.cls_init_checks cls _) as [[]|e].
Qed.

(** X13. For a registered variant whose constructor runs its own
    [check_validity] (as the cross-product sampler does), the factory's
    outcome is the constructor's: it raises the constructor's exception and
    creates nothing, or it returns the second of two new instances; the
    branch that reports "Sampler is invalid" is never taken. *)
Theorem new_sampler_outcome (d : SamplerData) (h : list Sampler)
    (t : string) (cls : samplers.SamplerClass) :
  type_ d = Some (Scalar (PyStr t)) ->
  SAMPLE_FUNCTIONS_DICT !! t = Some cls ->
  (forall self, samplers.cls_init_checks cls self = samplers.cls_check_validity cls self) ->
  run (new_sampler d) h =
  match samplers.cls_init_checks cls (base_sampler.__init__ d) with
  | Ok _ => (Ok (S (length h)), h ++ [base_sampler.__init__ d; base_sampler.__init__ d])
  | Raise e => (Raise e, h)
  end.
Proof. apply new_sampler_same_checks. Qed.

(** X14. The factory and the sampler compose: when [new_sampler] returns
    for a well-formed configuration of type [cross_product], the object
    behind the returned reference answers [get_samples()] with the full
    product, the constants followed by each choice of parameter values in
    lexicographic order. *)
Theorem new_sampler_cross_product_samples (d : SamplerData) (h h' : list Sampler)
    (r : nat) :
  type_ d = Some (Scalar (PyStr "cross_product")) ->
  data_wf d ->
  run (new_sampler d) h = (Ok r, h') ->
  exists self,
    h' !! r = Some self
    /\ (run cross_product.get_samples self).1
       = Ok (statements.sample_of d
               <$> lexicographic_product (statements.parameter_axes d)).
Proof.
  intros Ht Hwf Hrun.
  rewrite (new_sampler_same_checks d h "cross_product" samplers.CrossProductSampler)
    in Hrun; [|done|apply registry_cross_product|done].
  simpl in Hrun.
  destruct (cross_product.check_validity (base_sampler.__init__ d)) as [[]|e] eqn:Hv;
    [|done].
  injection Hrun as <- <-. exists (base_sampler.__init__ d). split.
  - rewrite lookup_app_r by lia. by replace (S (length h) - length h) with 1 by lia.
  - apply samples_explicit; [done|]. unfold cross_product.__init__. by rewrite Hv.
Qed.

End factory_outcome.

Lemma new_sampler_outcome_witness :
  run (examples.new_sampler examples.duplicate_data) []
  = (Raise (SamplingError (DuplicateVariable "X1")), []).
Proof.
  apply (new_sampler_outcome examples.unchecked examples.unchecked examples.unchecked
           examples.unchecked examples.unchecked examples.unchecked
           examples.duplicate_data [] "cross_product" samplers.CrossProductSampler);
    reflexivity.
Defined.

Lemma new_sampler_cross_product_samples_witness :
  exists self,
    [base_sampler.__init__ examples.cross_product_data;
     base_sampler.__init__ examples.cross_product_data] !! 1 = Some self
    /\ (run cross_product.get_samples self).1
       = Ok (statements.sample_of examples.cross_product_data
               <$> lexicographic_product
                     (statements.parameter_axes examples.cross_product_data)).
Proof.
  apply (new_sampler_cross_product_samples examples.unchecked examples.unchecked
           examples.unchecked examples.unchecked examples.unchecked examples.unchecked
           examples.cross_product_data [] _ 1); try reflexivity.
  split; unfold dict_wf; simpl; refine (bool_decide_unpack _ _); vm_compute; exact I.
Defined.

(** ** Importing the range sampler's module *)

Lemma import_module_cases {B} (path_exists : bool) (found : option B)
    (rest : B -> result unit) :
  uqpipeline_sample.import_module path_exists found rest =
  match path_exists, found with
  | true, Some backend => rest backend ≫= fun _ => Ok (true, Some backend)
  | _, _ => Raise (NameError "sampler")
  end.
Proof. by destruct path_exists, found. Qed.

(** X15. Importing the module of the range sampler only succeeds with the
    backend: if the installation path does not exist or the backend module
    is not found, the import raises [NameError] at the first statement that
    uses [sampler]; and whenever the import succeeds, [UQPIPELINE_SAMPLE]
    is true and [sampler] is the backend, so the flag is never seen
    false. *)
Theorem import_module_requires_backend {B} (path_exists : bool) (found : option B)
    (rest : B -> result unit) :
  (path_exists = false \/ found = None ->
   uqpipeline_sample.import_module path_exists found rest
   = Raise (NameError "sampler"))
  /\ (forall flag sampler,
        uqpipeline_sample.import_module path_exists found rest = Ok (flag, sampler) ->
        flag = true /\ path_exists = true /\ sampler = found /\ is_Some found).
Proof.
  rewrite import_module_cases. split.
  - intros [-> | ->]; [done | by destruct path_exists].
  - intros flag sampler. destruct path_exists, found as [b|]; try done.
    destruct (rest b) as [[]|e]; simpl; [|done]. intros [= <- <-]. eauto.
Qed.

Lemma import_module_requires_backend_witness :
  uqpipeline_sample.import_module true (@None unit) (fun _ => Ok tt)
  = Raise (NameError "sampler").
Proof.
  apply (proj1 (import_module_requires_backend true (@None unit) (fun _ => Ok tt))).
  by right.
Defined.
